(** * Breed: the web handlers of [app.py] and the companion tool
      [generate_image.py], embedded and verified.

    The two Python files are translated function by function.  Python
    strings are [string]s whose characters are the code points below 256;
    dictionaries are [gmap]s; an operation that may raise is a computation
    in the state-and-exception monad [M], whose state (the process
    environment, the files on disk, the log of outbound requests and the
    standard output) survives a raised exception, as it does in Python. *)

From Stdlib Require Import ZArith Ascii String Bool Lia.
From stdpp Require Import base option strings pretty gmap list.

Set Warnings "-register-all".

(** ** Python string methods *)

Module PyStr.

(** The double quote character, as a one-character string. *)
Definition dquote : string := String "034"%char EmptyString.

(** The line feed, as a one-character string. *)
Definition nl : string := String "010"%char EmptyString.

(** Truth value of a [str]: only the empty string is falsy. *)
Definition truthy (s : string) : bool :=
  match s with
  | EmptyString => false
  | String _ _ => true
  end.

(** [s.startswith(p)] *)
Definition startswith (s p : string) : bool := String.prefix p s.

(** The first occurrence of [sep] cuts [s] in two; [None] without one. *)
Fixpoint partition (sep : ascii) (s : string) : option (string * string) :=
  match s with
  | EmptyString => None
  | String c s' =>
      if Ascii.eqb c sep then Some (EmptyString, s')
      else match partition sep s' with
           | Some (a, b) => Some (String c a, b)
           | None => None
           end
  end.

(** [s.split(sep, 1)]: at most one cut, hence one or two pieces. *)
Definition split1 (sep : ascii) (s : string) : list string :=
  match partition sep s with
  | Some (a, b) => [a; b]
  | None => [s]
  end.

(** [s.split(sep)]: every occurrence of [sep] cuts. *)
Fixpoint split (sep : ascii) (s : string) : list string :=
  match s with
  | EmptyString => [EmptyString]
  | String c s' =>
      if Ascii.eqb c sep then EmptyString :: split sep s'
      else match split sep s' with
           | h :: t => String c h :: t
           | [] => [String c EmptyString]
           end
  end.

(** [c.isspace()] on the code points below 256. *)
Definition isspace (c : ascii) : bool :=
  let n := nat_of_ascii c in
  ((9 <=? n) && (n <=? 13)) || ((28 <=? n) && (n <=? 32))
  || (n =? 133) || (n =? 160).

Fixpoint lstrip (s : string) : string :=
  match s with
  | EmptyString => EmptyString
  | String c s' => if isspace c then lstrip s' else s
  end.

(** Drops the trailing characters that satisfy [drop]. *)
Fixpoint rstrip_by (drop : ascii -> bool) (s : string) : string :=
  match s with
  | EmptyString => EmptyString
  | String c s' =>
      match rstrip_by drop s' with
      | EmptyString => if drop c then EmptyString else String c EmptyString
      | r => String c r
      end
  end.

Definition rstrip (s : string) : string := rstrip_by isspace s.

(** [s.strip()] *)
Definition strip (s : string) : string := rstrip (lstrip s).

(** Whether every character of [s] is [c]. *)
Fixpoint all_char (c : ascii) (s : string) : bool :=
  match s with
  | EmptyString => true
  | String d s' => Ascii.eqb d c && all_char c s'
  end.

(** [s[:n]] *)
Definition slice_to (n : nat) (s : string) : string := String.substring 0 n s.

(** [s[-n:]] for [n > 0] *)
Definition slice_last (n : nat) (s : string) : string :=
  String.substring (String.length s - n) n s.

(** [c.lower()] on the code points below 256: the ASCII capitals and the
    Latin-1 capitals (all of 192..222 but the multiplication sign). *)
Definition lower_char (c : ascii) : ascii :=
  let n := nat_of_ascii c in
  if ((65 <=? n) && (n <=? 90))
     || ((192 <=? n) && (n <=? 222) && negb (n =? 215))
  then ascii_of_nat (n + 32) else c.

Fixpoint lower (s : string) : string :=
  match s with
  | EmptyString => EmptyString
  | String c s' => String (lower_char c) (lower s')
  end.

(** The lines of a multi-line literal, joined by line feeds. *)
Fixpoint unlines (ls : list string) : string :=
  match ls with
  | [] => EmptyString
  | [l] => l
  | l :: rest => l +:+ nl +:+ unlines rest
  end.

(** [sub in s] *)
Definition contains (s sub : string) : Prop :=
  exists pre post : string, s = pre +:+ sub +:+ post.

End PyStr.

(** ** JSON values and Python exceptions *)

(** A JSON document as Python holds it after parsing: [dict]s have unique
    keys, hence [gmap]; a float is kept as its IEEE-754 bit pattern. *)
Inductive json : Type :=
| JNull
| JBool (b : bool)
| JInt (z : Z)
| JFloat (bits : N)
| JStr (s : string)
| JArr (xs : list json)
| JObj (m : gmap string json).

(** [None] becomes [null]. *)
Definition json_of_opt (o : option string) : json :=
  match o with
  | Some s => JStr s
  | None => JNull
  end.

(** [type(v).__name__] *)
Definition type_name (v : json) : string :=
  match v with
  | JNull => "NoneType"
  | JBool _ => "bool"
  | JInt _ => "int"
  | JFloat _ => "float"
  | JStr _ => "str"
  | JArr _ => "list"
  | JObj _ => "dict"
  end.

(** An exception in flight.  [Exception cls msg] is an instance of the
    subclass [cls] of [Exception] with [str(e) = msg]; [SystemExit] is the
    one raised by [sys.exit], which [except Exception] does not catch. *)
Inductive exn : Type :=
| Exception (cls msg : string)
| SystemExit (code : Z).

(** The error monad of the pure helpers, with stdpp's [x ← m; k]. *)
Definition res (A : Type) : Type := exn + A.

Definition rraise {A} (e : exn) : res A := inl e.

#[global] Instance res_ret : MRet res := fun A x => inr x.
#[global] Instance res_bind : MBind res := fun A B k m =>
  match m with
  | inl e => inl e
  | inr x => k x
  end.

Definition KeyError (key : string) : exn :=
  Exception "KeyError" ("'" +:+ key +:+ "'").
Definition IndexError : exn :=
  Exception "IndexError" "list index out of range".
Definition AttributeError (v : json) (attr : string) : exn :=
  Exception "AttributeError"
    ("'" +:+ type_name v +:+ "' object has no attribute '" +:+ attr +:+ "'").
Definition NoneAttributeError (attr : string) : exn := AttributeError JNull attr.

(** [v[key]] with a [str] key, with the messages of CPython 3.11. *)
Definition getitem (v : json) (key : string) : res json :=
  match v with
  | JObj m =>
      match m !! key with
      | Some x => mret x
      | None => rraise (KeyError key)
      end
  | JStr _ =>
      rraise (Exception "TypeError" "string indices must be integers, not 'str'")
  | JArr _ =>
      rraise (Exception "TypeError"
                "list indices must be integers or slices, not str")
  | _ =>
      rraise (Exception "TypeError"
                ("'" +:+ type_name v +:+ "' object is not subscriptable"))
  end.

(** [v == s] for a string literal [s] *)
Definition eq_str (v : json) (s : string) : bool :=
  match v with
  | JStr t => String.eqb t s
  | _ => false
  end.

(** [v.startswith(p)] *)
Definition startswith (v : json) (p : string) : res bool :=
  match v with
  | JStr s => mret (PyStr.startswith s p)
  | _ => rraise (AttributeError v "startswith")
  end.

(** [v.split(',', 1)] *)
Definition split_comma (v : json) : res (list string) :=
  match v with
  | JStr s => mret (PyStr.split1 "," s)
  | _ => rraise (AttributeError v "split")
  end.

(** [l[i]] on a list *)
Definition index {A} (l : list A) (i : nat) : res A :=
  match l !! i with
  | Some x => mret x
  | None => rraise IndexError
  end.

(** ** What travels to and from the hosted endpoint *)

(** A block of a multimodal [content] array. *)
Inductive content_part : Type :=
| TextPart (text : string)
| ImageUrlPart (url : string).

(** The [content] of an outbound message: a plain string or an array. *)
Inductive content : Type :=
| Text (s : string)
| Parts (ps : list content_part).

Record chat_message : Type := ChatMessage {
  role : string;
  msg_content : content;
}.

(** The handle built by [get_client]. *)
Record client : Type := OpenAI {
  base_url : string;
  api_key : string;
}.

(** One call of [client.chat.completions.create]. *)
Record chat_request : Type := ChatRequest {
  req_client : client;
  req_model : string;
  req_messages : list chat_message;
}.

(** [choices[i].message]: [content] may be [None]; [images] is [None] when
    the attribute is missing or [None], and holds parsed JSON otherwise. *)
Record message : Type := Message {
  msg_text : option string;
  images : option (list json);
}.

Record choice : Type := Choice {
  choice_message : option message;
}.

Record response : Type := Response {
  choices : option (list choice);
}.

(** ** The world a handler runs in *)

Record world : Type := World {
  environ : gmap string string;   (* the process environment *)
  files : gmap string string;     (* path, as handed to the OS, to bytes *)
  dirs : gset string;             (* paths, as handed to the OS, of
                                     directories *)
  calls : list chat_request;      (* outbound requests, oldest first *)
  stdout : list string;           (* printed lines, oldest first *)
  uuids : nat;                    (* identifiers drawn so far *)
}.

Definition with_files (f : gmap string string) (w : world) : world :=
  World (environ w) f (dirs w) (calls w) (stdout w) (uuids w).
Definition with_dirs (d : gset string) (w : world) : world :=
  World (environ w) (files w) d (calls w) (stdout w) (uuids w).
Definition with_calls (c : list chat_request) (w : world) : world :=
  World (environ w) (files w) (dirs w) c (stdout w) (uuids w).
Definition with_stdout (o : list string) (w : world) : world :=
  World (environ w) (files w) (dirs w) (calls w) o (uuids w).
Definition with_uuids (n : nat) (w : world) : world :=
  World (environ w) (files w) (dirs w) (calls w) (stdout w) n.

(** State and exceptions: the state is returned on both outcomes. *)
Definition M (A : Type) : Type := world -> res A * world.

#[global] Instance M_ret : MRet M := fun A x w => (inr x, w).
#[global] Instance M_bind : MBind M := fun A B k m w =>
  match m w with
  | (inl e, w') => (inl e, w')
  | (inr x, w') => k x w'
  end.

Definition raise {A} (e : exn) : M A := fun w => (inl e, w).

(** A pure helper run inside a handler. *)
Definition lift {A} (r : res A) : M A := fun w => (r, w).

(** [try: body  except Exception as e: handler(str(e))] *)
Definition try_except {A} (body : M A) (handler : string -> M A) : M A :=
  fun w =>
    match body w with
    | (inl (Exception _ msg), w') => handler msg w'
    | r => r
    end.

(** [os.getenv(name)] *)
Definition getenv (name : string) : M (option string) :=
  fun w => (inr (environ w !! name), w).

(** [os.path.exists(p)], which never raises, and [STATE_FILE.exists()],
    asked of paths that name a file or nothing: whether a file is at
    [p]. *)
Definition exists_ (p : string) : M bool :=
  fun w => (inr (bool_decide (is_Some (files w !! p))), w).

(** [open(p, "rb").read()] *)
Definition read_file (p : string) : M string :=
  fun w =>
    match files w !! p with
    | Some data => (inr data, w)
    | None =>
        if bool_decide (p ∈ dirs w) then
          (inl (Exception "IsADirectoryError"
                  ("[Errno 21] Is a directory: '" +:+ p +:+ "'")), w)
        else
          (inl (Exception "FileNotFoundError"
                  ("[Errno 2] No such file or directory: '" +:+ p +:+ "'")), w)
    end.

(** [open(p, "w")] and [open(p, "wb")] on a path that can be opened for
    writing: the file is created, or truncated if it exists, when it is
    opened.  (A path that cannot be opened, such as a directory, is not
    modelled.) *)
Definition open_w (p : string) : M unit :=
  fun w => (inr tt, with_files (<[p := EmptyString]> (files w)) w).

(** [f.write(data)] followed by the close at the end of the [with] block *)
Definition write (p : string) (data : string) : M unit :=
  fun w => (inr tt, with_files (<[p := data]> (files w)) w).

(** [os.makedirs(d, exist_ok=True)], which succeeds; of the directories
    it makes, [d] is recorded. *)
Definition makedirs (d : string) : M unit :=
  fun w => (inr tt, with_dirs ({[d]} ∪ dirs w) w).

(** [print(line)] *)
Definition print (line : string) : M unit :=
  fun w => (inr tt, with_stdout (stdout w ++ [line]) w).

(** [sys.exit(code)] *)
Definition sys_exit {A} (code : Z) : M A := raise (SystemExit code).

(** ** The libraries the program imports

    [base64], [uuid], [json], [pathlib], [os] and the hosted endpoint
    behind the [openai] client are not part of the program: they are an
    interface the program is run against. *)
Class Runtime : Type := {
  (* [base64.b64encode(data).decode("utf-8")] *)
  b64encode : string -> string;
  (* [base64.b64decode(s)], which raises on malformed input *)
  b64decode : string -> res string;
  (* the answer of the endpoint to the [n]-th request of the process *)
  endpoint : nat -> chat_request -> res response;
  (* the [n]-th value of [str(uuid.uuid4())] *)
  uuid4_str : nat -> string;
  (* [Path(p).suffix] *)
  path_suffix : string -> string;
  (* [json.dump(d, f, indent=2)], as the text written *)
  json_dump : json -> string;
  (* [json.load(f)], from the text read *)
  json_load : string -> res json;
  (* what [os.stat(p)] raises on a path [p] that names nothing, when it is
     not one of the errors that mean that nothing is there *)
  stat_error : string -> option exn;
}.

(** ** [app.py]: the web handlers *)

Module App.
Section Handlers.
Context {rt : Runtime}.

(** A Flask response: [jsonify(body)] has status 200, and
    [return jsonify(body), code] has status [code]. *)
Record http_response : Type := HttpResponse {
  status : Z;
  body : json;
}.

Definition jsonify (fields : gmap string json) : http_response :=
  HttpResponse 200 (JObj fields).

Definition jsonify_status (fields : gmap string json) (code : Z)
  : http_response :=
  HttpResponse code (JObj fields).

(** [IMAGES_DIR = Path("static/generated")] *)
Definition IMAGES_DIR : string := "static/generated".

Definition TEXT_MODEL : string := "anthropic/claude-haiku-4.5".
Definition IMAGE_MODEL : string := "google/gemini-3-pro-image-preview".

(** The parts of a path as pathlib keeps them: the pieces between
    slashes, but for the empty pieces and the single dots. *)
Definition path_parts (p : string) : list string :=
  List.filter
    (fun part => negb (String.eqb part EmptyString || String.eqb part "."))
    (PyStr.split "/" p).

(** The root of a path: two slashes when it starts with exactly two, one
    slash when it starts with one or with more than two, none otherwise. *)
Definition path_root (p : string) : string :=
  if PyStr.startswith p "//" && negb (PyStr.startswith p "///") then "//"
  else if PyStr.startswith p "/" then "/"
  else EmptyString.

(** [str(Path(base) / rel)]: an absolute right operand replaces the left
    one, and the parts are joined again by single slashes. *)
Definition path_join (base rel : string) : string :=
  let root :=
    if PyStr.startswith rel "/" then path_root rel else path_root base in
  let parts :=
    if PyStr.startswith rel "/" then path_parts rel
    else path_parts base ++ path_parts rel in
  match root, parts with
  | EmptyString, [] => "."
  | _, _ => root +:+ String.concat "/" parts
  end.

(** [IMAGES_DIR / f"{image_id}.png"] *)
Definition image_file (image_id : string) : string :=
  path_join IMAGES_DIR (image_id +:+ ".png").

(** [Path(p).exists()] as pathlib has it up to Python 3.12: [True] when
    [os.stat] finds a file or a directory at [p], [False] when it reports
    that nothing is there; any other error of [os.stat] is raised. *)
Definition path_exists (p : string) : M bool :=
  fun w =>
    if bool_decide (is_Some (files w !! p)) || bool_decide (p ∈ dirs w)
    then (inr true, w)
    else match stat_error p with
         | Some e => (inl e, w)
         | None => (inr false, w)
         end.

(** [f"{x}"] for a value that is a [str] or [None] *)
Definition fmt (o : option string) : string :=
  match o with
  | Some s => s
  | None => "None"
  end.

(** Truth value of a value that is a [str] or [None] *)
Definition truthy (o : option string) : bool :=
  match o with
  | Some s => PyStr.truthy s
  | None => false
  end.

(** [client.chat.completions.create(model=..., messages=...)]: the request
    is logged, then answered (or failed) by the endpoint. *)
Definition chat_completions_create (c : client) (model : string)
    (msgs : list chat_message) : M response :=
  fun w =>
    let req := ChatRequest c model msgs in
    (endpoint (length (calls w)) req, with_calls (calls w ++ [req]) w).

(** [str(uuid.uuid4())] *)
Definition uuid4 : M string :=
  fun w => (inr (uuid4_str (uuids w)), with_uuids (S (uuids w)) w).

Definition get_client : M client :=
  api_key ← getenv "OPENROUTER_API_KEY";
  if negb (truthy api_key) then
    raise (Exception "ValueError"
             "OPENROUTER_API_KEY environment variable not set")
  else
    mret (OpenAI "https://openrouter.ai/api/v1" (fmt api_key)).

Definition encode_image (image_path : string) : M string :=
  data ← read_file image_path;
  mret (b64encode data).

(** [img["image_url"]["url"]] *)
Definition image_url_of (img : json) : res json :=
  iu ← getitem img "image_url";
  getitem iu "url".

(** The [for img in message.images] loop; returning is its [break]. *)
Fixpoint scan_images (imgs : list json) : res (option string) :=
  match imgs with
  | [] => mret None
  | img :: rest =>
      ty ← getitem img "type";
      is_data ←
        (if eq_str ty "image_url" then
           url ← image_url_of img;
           startswith url "data:image"
         else mret false);
      if (is_data : bool) then
        data_url ← image_url_of img;
        pieces ← split_comma data_url;
        image_data ← index pieces 1;
        mret (Some image_data)
      else scan_images rest
  end.

(** Returns [(image_data, text_content)]. *)
Definition extract_image_from_response (response : response)
  : res (option string * option string) :=
  match choices response with
  | None | Some [] => mret (None, None)
  | Some (first :: _) =>
      match choice_message first with
      | None => mret (None, None)
      | Some message =>
          let text_content :=
            if truthy (msg_text message) then msg_text message else None in
          image_data ←
            match images message with
            | None | Some [] => mret None
            | Some imgs => scan_images imgs
            end;
          mret (image_data, text_content)
      end
  end.

Definition random_prompt_text : string :=
  PyStr.unlines
    [ "Generate a single creative and unique fantasy creature description for an image generator.";
       "Be imaginative! Mix unexpected elements like:";
       "- Animal hybrids (e.g., " +:+ PyStr.dquote +:+ "a bioluminescent axolotl-phoenix" +:+ PyStr.dquote +:+ ")";
       "- Elemental creatures (e.g., " +:+ PyStr.dquote +:+ "a storm spirit made of lightning" +:+ PyStr.dquote +:+ ")";
       "- Mythical beings (e.g., " +:+ PyStr.dquote +:+ "a tiny dragon that lives in teacups" +:+ PyStr.dquote +:+ ")";
       "- Surreal combinations (e.g., " +:+ PyStr.dquote +:+ "a crystal deer with galaxies in its antlers" +:+ PyStr.dquote +:+ ")";
       EmptyString;
       "Respond with ONLY the creature description, nothing else. Keep it under 15 words." ].

(** [response.choices[0].message.content.strip()] *)
Definition first_content_stripped (response : response) : res string :=
  match choices response with
  | None =>
      rraise (Exception "TypeError" "'NoneType' object is not subscriptable")
  | Some cs =>
      first ← index cs 0;
      match choice_message first with
      | None => rraise (NoneAttributeError "content")
      | Some message =>
          match msg_text message with
          | None => rraise (NoneAttributeError "strip")
          | Some text => mret (PyStr.strip text)
          end
      end
  end.

(** [GET /api/random-prompt] *)
Definition random_prompt : M http_response :=
  client ← get_client;
  try_except
    (response ← chat_completions_create client TEXT_MODEL
                  [ChatMessage "user" (Text random_prompt_text)];
     prompt ← lift (first_content_stripped response);
     mret (jsonify {[ "prompt" := JStr prompt ]}))
    (fun e => mret (jsonify_status {[ "error" := JStr e ]} 500)).

Definition full_prompt (prompt : string) : string :=
  PyStr.unlines
    [ "Generate an image of: " +:+ prompt;
       EmptyString;
       "Make it detailed and visually appealing.";
       EmptyString;
       "Also give it a short creative name. Respond with ONLY the name." ].

(** The [# Save image] block shared by the two generating handlers: draws
    the identifier, opens the file, decodes, writes.  Returns the
    identifier. *)
Definition save_image (image_data : string) : M string :=
  u ← uuid4;
  let image_id := PyStr.slice_to 8 u in
  let image_path := image_file image_id in
  open_w image_path;;
  decoded ← lift (b64decode image_data);
  write image_path decoded;;
  mret image_id.

(** [POST /api/generate]; [data] is the JSON object of the request, with
    string fields. *)
Definition generate_animal (data : gmap string string) : M http_response :=
  let prompt := default "a cute fantasy animal" (data !! "prompt") in
  client ← get_client;
  try_except
    (response ← chat_completions_create client IMAGE_MODEL
                  [ChatMessage "user" (Text (full_prompt prompt))];
     '(image_data, name) ← lift (extract_image_from_response response);
     if negb (truthy image_data) then
       mret (jsonify_status {[ "error" := JStr "No image generated" ]} 500)
     else
       image_id ← save_image (fmt image_data);
       mret (jsonify
               {[ "id" := JStr image_id;
                  "name" := JStr (if truthy name then PyStr.strip (fmt name)
                                  else "Unknown Creature");
                  "image_url" :=
                    JStr ("/static/generated/" +:+ image_id +:+ ".png") ]}))
    (fun e => mret (jsonify_status {[ "error" := JStr e ]} 500)).

Definition breed_prompt (parent1_name parent2_name : string) : string :=
  PyStr.unlines
    [ "You are a fantasy creature designer. Two magical creatures have bred and produced offspring.";
       EmptyString;
       "PARENT 1: " +:+ PyStr.dquote +:+ parent1_name +:+ PyStr.dquote +:+ " (see first image)";
       "PARENT 2: " +:+ PyStr.dquote +:+ parent2_name +:+ PyStr.dquote +:+ " (see second image)";
       EmptyString;
       "Your task: Imagine and design their OFFSPRING - a completely NEW fantastical creature that could believably be born from these two parents.";
       EmptyString;
       "Think about:";
       "- What body structure would it inherit? (size, shape, limbs)";
       "- What textures and materials? (scales, fur, crystal, coral, etc.)";
       "- What colors and patterns would emerge from mixing the parents?";
       "- What special abilities or magical properties might it have?";
       "- What environment would it live in?";
       EmptyString;
       "Create a detailed, imaginative image of this NEW creature. It should feel like a real fantasy species that inherited traits from both parents in surprising and creative ways. Don't just blend the images - imagine what their CHILD would actually look like as a unique being.";
       EmptyString;
       "Also invent a creative species name for this offspring that reflects its heritage. Respond with ONLY the name, nothing else." ].

(** [POST /api/breed]; [data] is the JSON object of the request, with
    string fields.  The second parent is tested only if the first one
    exists, as [or] does. *)
Definition breed_animals (data : gmap string string) : M http_response :=
  let parent1_id := data !! "parent1_id" in
  let parent2_id := data !! "parent2_id" in
  let parent1_name := default "creature 1" (data !! "parent1_name") in
  let parent2_name := default "creature 2" (data !! "parent2_name") in
  let parent1_path := image_file (fmt parent1_id) in
  let parent2_path := image_file (fmt parent2_id) in
  found1 ← path_exists parent1_path;
  missing ←
    (if negb found1 then mret true
     else found2 ← path_exists parent2_path; mret (negb found2));
  if (missing : bool) then
    mret (jsonify_status {[ "error" := JStr "Parent images not found" ]} 404)
  else
    client ← get_client;
    base64_img1 ← encode_image parent1_path;
    base64_img2 ← encode_image parent2_path;
    let prompt := breed_prompt parent1_name parent2_name in
    try_except
      (response ← chat_completions_create client IMAGE_MODEL
                    [ChatMessage "user"
                       (Parts
                          [TextPart prompt;
                           ImageUrlPart
                             ("data:image/png;base64," +:+ base64_img1);
                           ImageUrlPart
                             ("data:image/png;base64," +:+ base64_img2)])];
       '(image_data, name) ← lift (extract_image_from_response response);
       if negb (truthy image_data) then
         mret (jsonify_status {[ "error" := JStr "No image generated" ]} 500)
       else
         image_id ← save_image (fmt image_data);
         mret (jsonify
                 {[ "id" := JStr image_id;
                    "name" :=
                      JStr (if truthy name then PyStr.strip (fmt name)
                            else PyStr.slice_to 3 parent1_name
                                 +:+ PyStr.slice_last 3 parent2_name);
                    "image_url" :=
                      JStr ("/static/generated/" +:+ image_id +:+ ".png");
                    "parents" :=
                      JArr [json_of_opt parent1_id; json_of_opt parent2_id] ]}))
      (fun e => mret (jsonify_status {[ "error" := JStr e ]} 500)).

(** [STATE_FILE = Path("state.json")] *)
Definition STATE_FILE : string := "state.json".

(** [POST /api/save-state]; [data] is the JSON document of the request. *)
Definition save_state (data : json) : M http_response :=
  try_except
    (open_w STATE_FILE;;
     write STATE_FILE (json_dump data);;
     mret (jsonify {[ "success" := JBool true ]}))
    (fun e => mret (jsonify_status {[ "error" := JStr e ]} 500)).

(** [jsonify(doc)] for a whole document *)
Definition jsonify_doc (doc : json) : http_response := HttpResponse 200 doc.

(** [GET /api/load-state] *)
Definition load_state : M http_response :=
  try_except
    (present ← exists_ STATE_FILE;
     if (present : bool) then
       text ← read_file STATE_FILE;
       doc ← lift (json_load text);
       mret (jsonify_doc doc)
     else
       mret (jsonify {[ "animals" := JArr []; "familyLines" := JArr [] ]}))
    (fun e => mret (jsonify_status {[ "error" := JStr e ]} 500)).

End Handlers.
End App.

(** ** [generate_image.py]: the command-line tool *)

Module Cli.
Section Tool.
Context {rt : Runtime}.

(** The namespace built by [argparse]; an option that was not given is
    [None]. *)
Record args : Type := Args {
  arg_prompt : string;
  arg_output : string;
  arg_input : option string;
  arg_input2 : option string;
  arg_model : string;
}.

Definition DEFAULT_OUTPUT : string := "generated_image.png".
Definition DEFAULT_MODEL : string := "google/gemini-3-pro-image-preview".

Definition get_client : M client :=
  api_key ← getenv "OPENROUTER_API_KEY";
  if negb (App.truthy api_key) then
    print "ERROR: OPENROUTER_API_KEY environment variable not set.";;
    print "Set it with: export OPENROUTER_API_KEY='your-key-here'";;
    sys_exit 1
  else
    mret (OpenAI "https://openrouter.ai/api/v1" (App.fmt api_key)).

Definition encode_image (image_path : string) : M string :=
  data ← read_file image_path;
  mret (b64encode data).

Definition mime_types : gmap string string :=
  {[ ".jpg" := "image/jpeg";
     ".jpeg" := "image/jpeg";
     ".png" := "image/png";
     ".gif" := "image/gif";
     ".webp" := "image/webp" ]}.

Definition get_image_mime_type (image_path : string) : string :=
  let ext := PyStr.lower (path_suffix image_path) in
  default "image/jpeg" (mime_types !! ext).

(** [p[:p.rfind('/') + 1]] *)
Fixpoint dir_head (p : string) : string :=
  match p with
  | EmptyString => EmptyString
  | String c p' =>
      match dir_head p' with
      | EmptyString =>
          if Ascii.eqb c "/" then String c EmptyString else EmptyString
      | h => String c h
      end
  end.

(** [os.path.dirname(p)] *)
Definition dirname (p : string) : string :=
  let head := dir_head p in
  if PyStr.truthy head && negb (PyStr.all_char "/" head)
  then PyStr.rstrip_by (fun c => Ascii.eqb c "/") head
  else head.

(** The fall-through of [extract_and_save_image]. *)
Definition no_images : M bool :=
  print "ERROR: No images found in response";;
  mret false.

(** The [for image_data in message.images] loop of
    [extract_and_save_image], with what follows it when it finds nothing. *)
Fixpoint save_first_image (imgs : list json) (output_path : string)
  : M bool :=
  match imgs with
  | [] => no_images
  | image_data :: rest =>
      ty ← lift (getitem image_data "type");
      is_data ←
        (if eq_str ty "image_url" then
           url ← lift (App.image_url_of image_data);
           lift (startswith url "data:image")
         else mret false);
      if (is_data : bool) then
        data_url ← lift (App.image_url_of image_data);
        pieces ← lift (split_comma data_url);
        base64_data ← lift (index pieces 1);
        let output_dir := dirname output_path in
        (if PyStr.truthy output_dir then makedirs output_dir else mret tt);;
        open_w output_path;;
        decoded ← lift (b64decode base64_data);
        write output_path decoded;;
        print ("SUCCESS: Image saved to " +:+ output_path);;
        mret true
      else save_first_image rest output_path
  end.

Definition extract_and_save_image (response : response)
    (output_path : string) : M bool :=
  match choices response with
  | None | Some [] =>
      print "ERROR: No response received from API";; mret false
  | Some (first :: _) =>
      match choice_message first with
      | None => print "ERROR: No response received from API";; mret false
      | Some message =>
          (if App.truthy (msg_text message) then
             print ("Model response: " +:+ App.fmt (msg_text message))
           else mret tt);;
          match images message with
          | None | Some [] => no_images
          | Some imgs => save_first_image imgs output_path
          end
      end
  end.

Definition generate_from_text (prompt output_path model : string) : M bool :=
  client ← get_client;
  print ("Generating image from prompt: "
         +:+ PyStr.slice_to 100 prompt +:+ "...");;
  response ← App.chat_completions_create client model
               [ChatMessage "user" (Text prompt)];
  extract_and_save_image response output_path.

Definition generate_from_two_images
    (image1 image2 prompt output_path model : string) : M bool :=
  client ← get_client;
  found1 ← exists_ image1;
  if negb found1 then
    print ("ERROR: Input image not found: " +:+ image1);; mret false
  else
  found2 ← exists_ image2;
  if negb found2 then
    print ("ERROR: Input image not found: " +:+ image2);; mret false
  else
    print ("Breeding images: " +:+ image1 +:+ " + " +:+ image2);;
    print ("Prompt: " +:+ PyStr.slice_to 100 prompt +:+ "...");;
    base64_image1 ← encode_image image1;
    base64_image2 ← encode_image image2;
    let mime_type1 := get_image_mime_type image1 in
    let mime_type2 := get_image_mime_type image2 in
    response ← App.chat_completions_create client model
                 [ChatMessage "user"
                    (Parts
                       [TextPart
                          ("Generate a new image that combines or blends these two images: "
                           +:+ prompt);
                        ImageUrlPart
                          ("data:" +:+ mime_type1 +:+ ";base64,"
                           +:+ base64_image1);
                        ImageUrlPart
                          ("data:" +:+ mime_type2 +:+ ";base64,"
                           +:+ base64_image2)])];
    extract_and_save_image response output_path.

Definition generate_from_image
    (input_image prompt output_path model : string) : M bool :=
  client ← get_client;
  found ← exists_ input_image;
  if negb found then
    print ("ERROR: Input image not found: " +:+ input_image);; mret false
  else
    print ("Generating image from: " +:+ input_image);;
    print ("Prompt: " +:+ PyStr.slice_to 100 prompt +:+ "...");;
    base64_image ← encode_image input_image;
    let mime_type := get_image_mime_type input_image in
    response ← App.chat_completions_create client model
                 [ChatMessage "user"
                    (Parts
                       [TextPart ("Generate an image: " +:+ prompt);
                        ImageUrlPart
                          ("data:" +:+ mime_type +:+ ";base64,"
                           +:+ base64_image)])];
    extract_and_save_image response output_path.

(** [main()] after [parser.parse_args()]; it always ends in [sys.exit]. *)
Definition main (a : args) : M unit :=
  success ←
    (if App.truthy (arg_input a) && App.truthy (arg_input2 a) then
       generate_from_two_images (App.fmt (arg_input a))
         (App.fmt (arg_input2 a)) (arg_prompt a) (arg_output a) (arg_model a)
     else if App.truthy (arg_input a) then
       generate_from_image (App.fmt (arg_input a)) (arg_prompt a)
         (arg_output a) (arg_model a)
     else if App.truthy (arg_input2 a) then
       print "ERROR: --input2 requires --input to also be specified";;
       sys_exit 1
     else
       generate_from_text (arg_prompt a) (arg_output a) (arg_model a));
  sys_exit (if (success : bool) then 0 else 1).

(** The exit status of the process: the code of [sys.exit], and 1 when
    another exception reaches the top level. *)
Definition exit_status (a : args) (w : world) : Z * world :=
  match main a w with
  | (inl (SystemExit code), w') => (code, w')
  | (inl (Exception _ _), w') => (1%Z, w')
  | (inr _, w') => (0%Z, w')
  end.

End Tool.
End Cli.

(** ** A concrete runtime, for running the program on examples *)

Module Sample.

(** The value of a character of the standard base64 alphabet. *)
Definition b64_value (c : ascii) : option N :=
  let n := N_of_ascii c in
  if ((65 <=? n) && (n <=? 90))%N then Some (n - 65)%N
  else if ((97 <=? n) && (n <=? 122))%N then Some (n - 71)%N
  else if ((48 <=? n) && (n <=? 57))%N then Some (n + 4)%N
  else if (n =? 43)%N then Some 62%N
  else if (n =? 47)%N then Some 63%N
  else None.

Definition b64_char (n : N) : ascii :=
  if (n <? 26)%N then ascii_of_N (n + 65)
  else if (n <? 52)%N then ascii_of_N (n + 71)
  else if (n <? 62)%N then ascii_of_N (n - 4)
  else if (n =? 62)%N then "+"%char
  else "/"%char.

Definition binascii_Error (msg : string) : exn :=
  Exception "binascii.Error" msg.

(** [binascii.a2b_base64] in its default mode: characters outside the
    alphabet are skipped, a completed pad sequence ends the input, and a
    quad left open at the end is an error.  [quad_pos] is the position in
    the current quad, [leftchar] the bits not yet written, [pads] the pad
    characters seen in the current quad and [seen] the number of data
    characters read. *)
Fixpoint a2b_base64 (s : string) (quad_pos : nat) (leftchar : N)
    (pads seen : nat) : res string :=
  match s with
  | EmptyString =>
      match quad_pos with
      | 0 => mret EmptyString
      | 1 =>
          rraise (binascii_Error
                    ("Invalid base64-encoded string: number of data characters ("
                     +:+ pretty seen
                     +:+ ") cannot be 1 more than a multiple of 4"))
      | _ => rraise (binascii_Error "Incorrect padding")
      end
  | String c s' =>
      if Ascii.eqb c "=" then
        if (2 <=? quad_pos) && (4 <=? quad_pos + S pads) then mret EmptyString
        else a2b_base64 s' quad_pos leftchar
               (if 2 <=? quad_pos then S pads else pads) seen
      else
        match b64_value c with
        | None => a2b_base64 s' quad_pos leftchar pads seen
        | Some d =>
            match quad_pos with
            | 0 => a2b_base64 s' 1 d 0 (S seen)
            | 1 =>
                rest ← a2b_base64 s' 2 (N.land d 15) 0 (S seen);
                mret (String (ascii_of_N (leftchar * 4 + d / 16)) rest)
            | 2 =>
                rest ← a2b_base64 s' 3 (N.land d 3) 0 (S seen);
                mret (String (ascii_of_N (leftchar * 16 + d / 4)) rest)
            | _ =>
                rest ← a2b_base64 s' 0 0%N 0 (S seen);
                mret (String (ascii_of_N (leftchar * 64 + d)) rest)
            end
        end
  end.

Fixpoint is_ascii (s : string) : bool :=
  match s with
  | EmptyString => true
  | String c s' => (N_of_ascii c <? 128)%N && is_ascii s'
  end.

(** [base64.b64decode(s)] for a [str] argument *)
Definition base64_b64decode (s : string) : res string :=
  if is_ascii s then a2b_base64 s 0 0%N 0 0
  else rraise (Exception "ValueError"
                 "string argument should contain only ASCII characters").

(** [base64.b64encode(data).decode("utf-8")] *)
Fixpoint base64_b64encode (data : string) : string :=
  match data with
  | EmptyString => EmptyString
  | String a EmptyString =>
      let a := N_of_ascii a in
      String (b64_char (a / 4))
        (String (b64_char (N.land a 3 * 16)) "==")
  | String a (String b EmptyString) =>
      let a := N_of_ascii a in
      let b := N_of_ascii b in
      String (b64_char (a / 4))
        (String (b64_char (N.land a 3 * 16 + b / 16))
           (String (b64_char (N.land b 15 * 4)) "="))
  | String a (String b (String c rest)) =>
      let a := N_of_ascii a in
      let b := N_of_ascii b in
      let c := N_of_ascii c in
      String (b64_char (a / 4))
        (String (b64_char (N.land a 3 * 16 + b / 16))
           (String (b64_char (N.land b 15 * 4 + c / 64))
              (String (b64_char (N.land c 63)) (base64_b64encode rest))))
  end.

(** [name[name.rfind('.'):]], and [None] when [name] has no dot *)
Fixpoint from_last_dot (name : string) : option string :=
  match name with
  | EmptyString => None
  | String c name' =>
      match from_last_dot name' with
      | Some sfx => Some sfx
      | None => if Ascii.eqb c "." then Some name else None
      end
  end.

(** [PurePosixPath(p).name]: the last component that is neither empty
    nor a single dot. *)
Definition posix_name (p : string) : string :=
  List.last
    (List.filter
       (fun part => negb (String.eqb part EmptyString || String.eqb part "."))
       (PyStr.split "/" p))
    EmptyString.

(** [PurePosixPath(p).suffix], as pathlib computes it up to Python 3.13:
    the text from the last dot of the name, unless that dot is the first
    or the last character. *)
Definition posix_suffix (p : string) : string :=
  let name := posix_name p in
  match from_last_dot name with
  | Some sfx =>
      if (String.length sfx <? String.length name)
         && (1 <? String.length sfx)
      then sfx else EmptyString
  | None => EmptyString
  end.

(** The length of the UTF-8 encoding of a string of code points below
    256: two bytes from 128 on. *)
Fixpoint utf8_length (s : string) : nat :=
  match s with
  | EmptyString => 0
  | String c s' =>
      (if (N_of_ascii c <? 128)%N then 1 else 2) + utf8_length s'
  end.

(** [os.stat] on a path that names nothing, on Linux: a name of more than
    255 bytes directly under [static/generated] is refused; elsewhere the
    path is reported as absent. *)
Definition os_stat_error (p : string) : option exn :=
  if String.prefix "static/generated/" p
     && (String.length p =? 17 + String.length (posix_name p))
     && (255 <? utf8_length (posix_name p))
  then Some (Exception "OSError"
               ("[Errno 36] File name too long: '" +:+ p +:+ "'"))
  else None.

Definition uuid4_value : string := "3f2b8c1d-9a4e-4c6b-8d2f-0123456789ab".

(** The state document of the round-trip test, and its text as
    [json.dump(..., indent=2)] writes it. *)
Definition state_doc : json :=
  JObj {[ "animals" := JArr [JObj {[ "id" := JStr "ab12cd34" ]}] ]}.

Definition state_text : string :=
  PyStr.unlines
    [ "{";
      "  " +:+ PyStr.dquote +:+ "animals" +:+ PyStr.dquote +:+ ": [";
      "    {";
      "      " +:+ PyStr.dquote +:+ "id" +:+ PyStr.dquote +:+ ": "
        +:+ PyStr.dquote +:+ "ab12cd34" +:+ PyStr.dquote;
      "    }";
      "  ]";
      "}" ].

(** A runtime whose endpoint always gives [answer] and whose JSON codec
    knows the one document [state_doc]. *)
Definition runtime (answer : res response) : Runtime := {|
  b64encode := base64_b64encode;
  b64decode := base64_b64decode;
  endpoint := fun _ _ => answer;
  uuid4_str := fun _ => uuid4_value;
  path_suffix := posix_suffix;
  json_dump := fun _ => state_text;
  json_load := fun text =>
    if String.eqb text state_text then mret state_doc
    else rraise (Exception "JSONDecodeError" "Expecting value");
  stat_error := os_stat_error;
|}.

(** An item of [message.images] as the endpoint sends it. *)
Definition image_item (url : string) : json :=
  JObj {[ "type" := JStr "image_url";
          "image_url" := JObj {[ "url" := JStr url ]} ]}.

(** A response of one candidate message. *)
Definition answer (text : option string) (imgs : option (list json))
  : response :=
  Response (Some [Choice (Some (Message text imgs))]).

(** The response of the extraction example of the specification. *)
Definition named_message : message :=
  Message (Some "Name") (Some [image_item "data:image/png;base64,AAAA"]).

Definition named_response : response :=
  Response (Some [Choice (Some named_message)]).

(** A response whose only image is a data URI without a comma. *)
Definition commaless_message : message :=
  Message (Some "Name") (Some [image_item "data:image/png"]).

Definition commaless_response : response :=
  Response (Some [Choice (Some commaless_message)]).

(** A response whose comma-less data URI follows a well-formed one. *)
Definition shadowed_response : response :=
  answer (Some "Name")
    (Some [image_item "data:image/png;base64,AAAA";
           image_item "data:image/png"]).

(** A response whose image payload is not valid base64. *)
Definition bad_payload_response : response :=
  answer (Some "Name") (Some [image_item "data:image/png;base64,AAA"]).

(** A response with an image and no text. *)
Definition nameless_response : response :=
  answer None (Some [image_item "data:image/png;base64,AAAA"]).

(** A fresh process: nothing set, nothing stored, nothing sent. *)
Definition bare : world := World ∅ ∅ ∅ [] [] 0.

(** The same with the credential set. *)
Definition keyed : world :=
  World {[ "OPENROUTER_API_KEY" := "sk-or-test" ]} ∅ ∅ [] [] 0.

(** The credential set and two parent images on disk. *)
Definition stocked : world :=
  World {[ "OPENROUTER_API_KEY" := "sk-or-test" ]}
    {[ "static/generated/aaaa1111.png" := "abc";
       "static/generated/bbbb2222.png" := "xyz" ]}
    ∅ [] [] 0.

(** The credential set and two input images of the tool on disk. *)
Definition kennel : world :=
  World {[ "OPENROUTER_API_KEY" := "sk-or-test" ]}
    {[ "cat.jpg" := "abc"; "dog.png" := "xyz" ]}
    ∅ [] [] 0.

Definition breed_data : gmap string string :=
  {[ "parent1_id" := "aaaa1111";
     "parent2_id" := "bbbb2222";
     "parent1_name" := "Alphaborn";
     "parent2_name" := "Zephyrix" ]}.

(** The offspring of the two, bred from a response without text. *)
Definition offspring : App.http_response :=
  App.HttpResponse 200
    (JObj {[ "id" := JStr "3f2b8c1d";
             "name" := JStr "Alprix";
             "image_url" := JStr "/static/generated/3f2b8c1d.png";
             "parents" := JArr [JStr "aaaa1111"; JStr "bbbb2222"] ]}).

End Sample.

(** ** The extractor, in the words of the specification *)

Module Spec.

(** [it[key]] when [it] is an object that has the key. *)
Definition field (it : json) (key : string) : option json :=
  match it with
  | JObj m => m !! key
  | _ => None
  end.

(** The URL of a media item that is an inline image carrying a data URI:
    its type is [image_url] and its URL begins with [data:image]. *)
Definition data_image_url (it : json) : option string :=
  match field it "type" with
  | Some (JStr ty) =>
      if String.eqb ty "image_url" then
        match field it "image_url" ≫= (fun iu => field iu "url") with
        | Some (JStr u) => if String.prefix "data:image" u then Some u else None
        | _ => None
        end
      else None
  | _ => None
  end.

(** A media item of another kind that is well formed: it has a type, and
    when the type is [image_url] it has a URL, which is a string. *)
Definition other_item (it : json) : bool :=
  match field it "type" with
  | Some ty =>
      if eq_str ty "image_url" then
        match field it "image_url" ≫= (fun iu => field iu "url") with
        | Some (JStr u) => negb (String.prefix "data:image" u)
        | _ => false
        end
      else true
  | None => false
  end.

(** The first inline data-URI image of a media list, in list order. *)
Fixpoint first_data_image (imgs : list json) : option string :=
  match imgs with
  | [] => None
  | it :: rest =>
      match data_image_url it with
      | Some u => Some u
      | None => first_data_image rest
      end
  end.

(** The items that precede the first inline data-URI image. *)
Fixpoint before_first (imgs : list json) : list json :=
  match imgs with
  | [] => []
  | it :: rest =>
      match data_image_url it with
      | Some _ => []
      | None => it :: before_first rest
      end
  end.

(** Whether [c] occurs in [s]. *)
Fixpoint occurs (c : ascii) (s : string) : bool :=
  match s with
  | EmptyString => false
  | String d s' => Ascii.eqb d c || occurs c s'
  end.

(** What follows the first comma of [u]: [u = head , payload] with no
    comma in [head]. *)
Definition payload_of (u payload : string) : Prop :=
  exists head : string,
    u = head +:+ String "," payload /\ occurs "," head = false.

(** The first candidate message of a response. *)
Definition first_message (r : response) : option message :=
  match choices r with
  | Some (first :: _) => choice_message first
  | _ => None
  end.

(** Its media list, empty when it has none. *)
Definition media (m : message) : list json := default [] (images m).

(** Its free text, if present. *)
Definition free_text (m : message) : option string :=
  match msg_text m with
  | Some (String c t) => Some (String c t)
  | _ => None
  end.

(** The media list can be scanned: what precedes the first inline
    data-URI image is well formed. *)
Definition scannable (imgs : list json) : Prop :=
  Forall (fun it => other_item it = true) (before_first imgs).

(** The media list of the first candidate message of a response. *)
Definition response_media (r : response) : list json :=
  match first_message r with
  | Some m => media m
  | None => []
  end.

(** The image field and the textual field that extraction yields. *)
Inductive extraction (r : response)
  : option string -> option string -> Prop :=
| no_candidate :
    first_message r = None ->
    extraction r None None
| no_image (m : message) :
    first_message r = Some m ->
    first_data_image (media m) = None ->
    extraction r None (free_text m)
| image (m : message) (u payload : string) :
    first_message r = Some m ->
    first_data_image (media m) = Some u ->
    payload_of u payload ->
    extraction r (Some payload) (free_text m).

(** The fixed table of MIME types, by lower-cased extension. *)
Definition mime_of_extension (ext : string) : string :=
  if String.eqb ext ".jpg" then "image/jpeg"
  else if String.eqb ext ".jpeg" then "image/jpeg"
  else if String.eqb ext ".png" then "image/png"
  else if String.eqb ext ".gif" then "image/gif"
  else if String.eqb ext ".webp" then "image/webp"
  else "image/jpeg".

(** The first [n] and the last [n] characters of a name. *)
Definition first_chars (n : nat) (s : string) : string :=
  string_of_list_ascii (take n (list_ascii_of_string s)).

Definition last_chars (n : nat) (s : string) : string :=
  let cs := list_ascii_of_string s in
  string_of_list_ascii (drop (length cs - n) cs).

(** The name of a JSON response body. *)
Definition name_of (body : json) : option json := field body "name".

(** The credential is absent: unset, or set to the empty string. *)
Definition no_credential (w : world) : Prop :=
  environ w !! "OPENROUTER_API_KEY" = None
  \/ environ w !! "OPENROUTER_API_KEY" = Some EmptyString.

(** The configuration error of the web handlers. *)
Definition config_error : exn :=
  Exception "ValueError" "OPENROUTER_API_KEY environment variable not set".

(** What the tool prints when the credential is absent. *)
Definition config_lines : list string :=
  [ "ERROR: OPENROUTER_API_KEY environment variable not set.";
    "Set it with: export OPENROUTER_API_KEY='your-key-here'" ].

(** The world after [lines] were printed and nothing else happened. *)
Definition printed (lines : list string) (w : world) : world :=
  with_stdout (stdout w ++ lines) w.

(** The state sent when nothing was saved. *)
Definition empty_state : json :=
  JObj {[ "animals" := JArr []; "familyLines" := JArr [] ]}.

(** The client that [get_client] builds in a world. *)
Definition client_of (w : world) : client :=
  OpenAI "https://openrouter.ai/api/v1"
    (App.fmt (environ w !! "OPENROUTER_API_KEY")).

(** The request of a generation: one user message, the prompt as text. *)
Definition generate_request (w : world) (prompt : string) : chat_request :=
  ChatRequest (client_of w) App.IMAGE_MODEL
    [ChatMessage "user" (Text (App.full_prompt prompt))].

(** The request of a breeding: one user message whose content is the text
    block, then the image of parent 1, then the image of parent 2. *)
Definition breed_request {rt : Runtime} (w : world)
    (data : gmap string string) (img1 img2 : string) : chat_request :=
  ChatRequest (client_of w) App.IMAGE_MODEL
    [ChatMessage "user"
       (Parts
          [TextPart
             (App.breed_prompt
                (default "creature 1" (data !! "parent1_name"))
                (default "creature 2" (data !! "parent2_name")));
           ImageUrlPart ("data:image/png;base64," +:+ b64encode img1);
           ImageUrlPart ("data:image/png;base64," +:+ b64encode img2)])].

(** What the tool does with the URL [u] of the image it found: an
    IndexError without a comma; otherwise the directory of the output is
    made, the output is opened, and the payload is decoded and written. *)
Definition tool_saves {rt : Runtime} (u out : string) (w : world)
  : res bool * world :=
  match PyStr.partition "," u with
  | None => (inl IndexError, w)
  | Some (_, payload) =>
      let w1 :=
        if PyStr.truthy (Cli.dirname out)
        then with_dirs ({[Cli.dirname out]} ∪ dirs w) w else w in
      match b64decode payload with
      | inl e => (inl e, with_files (<[out := EmptyString]> (files w1)) w1)
      | inr decoded =>
          (inr true,
           printed ["SUCCESS: Image saved to " +:+ out]
             (with_files (<[out := decoded]> (files w1)) w1))
      end
  end.

(** An identifier that is a plain name, without a slash, and the path of
    its image: the file of that name directly under [static/generated]. *)
Definition plain (image_id : string) : Prop := occurs "/" image_id = false.

Definition image_path (image_id : string) : string :=
  "static/generated/" +:+ image_id +:+ ".png".

(** Nothing is at the path [p]: neither a file nor a directory. *)
Definition names_nothing (w : world) (p : string) : Prop :=
  files w !! p = None /\ p ∉ dirs w.

(** Nothing is at [p], and [os.stat] reports it so. *)
Definition absent {rt : Runtime} (w : world) (p : string) : Prop :=
  names_nothing w p /\ stat_error p = None.

(** The existence test of [p] returns: [os.stat] finds what is at [p],
    or reports that nothing is. *)
Definition testable {rt : Runtime} (w : world) (p : string) : Prop :=
  names_nothing w p -> stat_error p = None.

(** The file that the [n]-th identifier of the process names. *)
Definition minted_file {rt : Runtime} (n : nat) : string :=
  App.image_file (PyStr.slice_to 8 (uuid4_str n)).

End Spec.


(** ** Requests, responses and cases of the further properties *)

Module Shape.

(** The world after one more request was sent and nothing else happened. *)
Definition sent (req : chat_request) (w : world) : world :=
  with_calls (calls w ++ [req]) w.

(** The request of the random-prompt handler: one user message, plain
    text, to the text model. *)
Definition random_request (w : world) : chat_request :=
  ChatRequest (Spec.client_of w) App.TEXT_MODEL
    [ChatMessage "user" (Text App.random_prompt_text)].

(** The request of the tool from a prompt alone. *)
Definition text_request (w : world) (model prompt : string) : chat_request :=
  ChatRequest (Spec.client_of w) model [ChatMessage "user" (Text prompt)].

(** The request of the tool from one input image. *)
Definition image_request {rt : Runtime} (w : world)
    (model prompt input_image data : string) : chat_request :=
  ChatRequest (Spec.client_of w) model
    [ChatMessage "user"
       (Parts
          [TextPart ("Generate an image: " +:+ prompt);
           ImageUrlPart
             ("data:" +:+ Cli.get_image_mime_type input_image +:+ ";base64,"
              +:+ b64encode data)])].

(** The request of the tool from two input images. *)
Definition two_image_request {rt : Runtime} (w : world)
    (model prompt image1 image2 data1 data2 : string) : chat_request :=
  ChatRequest (Spec.client_of w) model
    [ChatMessage "user"
       (Parts
          [TextPart
             ("Generate a new image that combines or blends these two images: "
              +:+ prompt);
           ImageUrlPart
             ("data:" +:+ Cli.get_image_mime_type image1 +:+ ";base64,"
              +:+ b64encode data1);
           ImageUrlPart
             ("data:" +:+ Cli.get_image_mime_type image2 +:+ ";base64,"
              +:+ b64encode data2)])].

(** The JSON error answer of the web handlers. *)
Definition error_response (msg : string) : App.http_response :=
  App.HttpResponse 500 (JObj {[ "error" := JStr msg ]}).

Definition not_found_response : App.http_response :=
  App.HttpResponse 404 (JObj {[ "error" := JStr "Parent images not found" ]}).

(** The identifier that the next generation or breeding mints. *)
Definition minted_id {rt : Runtime} (w : world) : string :=
  PyStr.slice_to 8 (uuid4_str (uuids w)).

(** The name a handler gives: the stripped text, else the fallback. *)
Definition derived_name (txt : option string) (fallback : string) : string :=
  if App.truthy txt then PyStr.strip (App.fmt txt) else fallback.

(** The credential is present. *)
Definition credential (w : world) : Prop :=
  App.truthy (environ w !! "OPENROUTER_API_KEY") = true.

(** What the libraries raise are exceptions: neither the call of the
    endpoint nor the decoder ends the process by itself. *)
Definition libraries_raise_exceptions {rt : Runtime} : Prop :=
  (forall (n : nat) (req : chat_request) (code : Z),
     endpoint n req <> inl (SystemExit code))
  /\ (forall (s : string) (code : Z), b64decode s <> inl (SystemExit code)).

(** The world after the tool made the directory of [out], if it has one,
    and wrote [data] to [out]. *)
Definition output_written (out data : string) (w : world) : world :=
  let w1 :=
    if PyStr.truthy (Cli.dirname out)
    then with_dirs ({[Cli.dirname out]} ∪ dirs w) w else w in
  with_files (<[out := data]> (files w1)) w1.

End Shape.

Module Cases.

(** An answer of the text model, padded with white space. *)
Definition text_response : response :=
  Sample.answer (Some ("  a crystal deer with galaxies " +:+ PyStr.nl)) None.

(** An answer without candidate messages. *)
Definition empty_response : response := Response (Some []).

(** An answer whose message has neither text nor images. *)
Definition blank_response : response := Sample.answer None None.

(** An answer whose one media item is a dict without a [type]. *)
Definition untyped_message : message :=
  Message (Some "Name") (Some [JObj {[ "kind" := JStr "image_url" ]}]).

Definition untyped_response : response :=
  Response (Some [Choice (Some untyped_message)]).

(** An answer whose data URI ends at its comma. *)
Definition empty_payload_message : message :=
  Message (Some "Name") (Some [Sample.image_item "data:image/png;base64,"]).

Definition empty_payload_response : response :=
  Response (Some [Choice (Some empty_payload_message)]).

(** An answer whose first image is followed by an item that is no dict. *)
Definition trailing_junk_message : message :=
  Message (Some "Name")
    (Some [JObj {[ "type" := JStr "text" ]};
           Sample.image_item "data:image/png;base64,AAAA";
           JNull]).

(** [s * n] *)
Fixpoint copies (n : nat) (s : string) : string :=
  match n with
  | 0 => EmptyString
  | S n' => s +:+ copies n' s
  end.

(** An identifier longer than a file name may be. *)
Definition overlong_id : string := copies 300 "a".

(** The three zero bytes that [AAAA] encodes. *)
Definition three_nuls : string :=
  String "000"%char (String "000"%char (String "000"%char EmptyString)).

(** The answer of the first generation from [Sample.named_response]. *)
Definition newborn : App.http_response :=
  App.HttpResponse 200
    (JObj {[ "id" := JStr "3f2b8c1d";
             "name" := JStr "Name";
             "image_url" := JStr "/static/generated/3f2b8c1d.png" ]}).

(** The failure of the endpoint. *)
Definition quota : exn := Exception "RateLimitError" "quota exceeded".

(** A world whose state file is not JSON. *)
Definition corrupt : world :=
  World ∅ {[ "state.json" := "{oops" ]} ∅ [] [] 0.

(** Breeding the two parents of [Sample.stocked] without their names. *)
Definition anonymous_breed_data : gmap string string :=
  {[ "parent1_id" := "aaaa1111"; "parent2_id" := "bbbb2222" ]}.

(** Breeding the image that the first generation minted with itself. *)
Definition self_breed_data : gmap string string :=
  {[ "parent1_id" := "3f2b8c1d"; "parent2_id" := "3f2b8c1d" ]}.

(** The tool from a prompt alone, from one image, and with the second
    image but not the first. *)
Definition text_args : Cli.args :=
  Cli.Args "a fox" "out/fox.png" None None Cli.DEFAULT_MODEL.

Definition image_args : Cli.args :=
  Cli.Args "as a watercolor" Cli.DEFAULT_OUTPUT (Some "cat.jpg") None
    Cli.DEFAULT_MODEL.

Definition two_image_args : Cli.args :=
  Cli.Args "a hybrid" "child.png" (Some "cat.jpg") (Some "dog.png")
    Cli.DEFAULT_MODEL.

Definition lonely_input2_args : Cli.args :=
  Cli.Args "a hybrid" Cli.DEFAULT_OUTPUT None (Some "dog.png")
    Cli.DEFAULT_MODEL.

End Cases.

(** * Properties

    ** Strings *)

Lemma append_assoc (a b c : string) : (a +:+ b) +:+ c = a +:+ b +:+ c.
Proof.
  induction a as [|x a IH]; [done|].
  change (String x ((a +:+ b) +:+ c) = String x (a +:+ b +:+ c)).
  by f_equal.
Qed.

Lemma append_nil_r (a : string) : a +:+ EmptyString = a.
Proof.
  induction a as [|x a IH]; [done|].
  change (String x (a +:+ EmptyString) = String x a). by f_equal.
Qed.

Lemma partition_cut (sep : ascii) (head payload : string) :
  Spec.occurs sep head = false ->
  PyStr.partition sep (head +:+ String sep payload) = Some (head, payload).
Proof.
  induction head as [|c head IH]; simpl; intros Hocc.
  - by rewrite Ascii.eqb_refl.
  - apply orb_false_iff in Hocc as [Hc Hhead].
    rewrite Hc, (IH Hhead). done.
Qed.

Lemma partition_none (sep : ascii) (s : string) :
  Spec.occurs sep s = false -> PyStr.partition sep s = None.
Proof.
  induction s as [|c s IH]; simpl; [done|].
  intros [Hc Hs]%orb_false_iff. by rewrite Hc, (IH Hs).
Qed.

Lemma partition_some (sep : ascii) (s : string) :
  Spec.occurs sep s = true ->
  exists head payload : string,
    PyStr.partition sep s = Some (head, payload)
    /\ s = head +:+ String sep payload /\ Spec.occurs sep head = false.
Proof.
  induction s as [|c s IH]; simpl; [done|].
  destruct (Ascii.eqb c sep) eqn:Hc; simpl.
  - intros _. apply Ascii.eqb_eq in Hc as ->. by exists EmptyString, s.
  - intros (head & payload & -> & -> & Hh)%IH.
    exists (String c head), payload. simpl. by rewrite Hc, Hh.
Qed.

Lemma partition_inv (sep : ascii) (s head payload : string) :
  PyStr.partition sep s = Some (head, payload) ->
  s = head +:+ String sep payload /\ Spec.occurs sep head = false.
Proof.
  revert head. induction s as [|c s IH]; simpl; intros head; [done|].
  destruct (Ascii.eqb c sep) eqn:Hc.
  - intros [= <- <-]. by apply Ascii.eqb_eq in Hc as ->.
  - destruct (PyStr.partition sep s) as [[a b]|]; [|done].
    intros [= <- <-]. destruct (IH a eq_refl) as [-> Ha].
    simpl. by rewrite Hc, Ha.
Qed.

Lemma contains_append_l (s t sub : string) :
  PyStr.contains s sub -> PyStr.contains (s +:+ t) sub.
Proof.
  intros (pre & post & ->). exists pre, (post +:+ t).
  by rewrite !append_assoc.
Qed.

Lemma contains_append_r (s t sub : string) :
  PyStr.contains t sub -> PyStr.contains (s +:+ t) sub.
Proof.
  intros (pre & post & ->). exists (s +:+ pre), post.
  by rewrite !append_assoc.
Qed.

(** A text contains what one of its lines contains. *)
Lemma contains_unlines (ls : list string) (l sub : string) :
  l ∈ ls -> PyStr.contains l sub -> PyStr.contains (PyStr.unlines ls) sub.
Proof.
  intros Hin Hsub. induction Hin as [l ls | l l' ls Hin IH].
  - destruct ls as [|l' ls]; [exact Hsub|].
    change (PyStr.contains
              (l +:+ PyStr.nl +:+ PyStr.unlines (l' :: ls)) sub).
    by apply contains_append_l.
  - destruct ls as [|l'' ls]; [by apply elem_of_nil in Hin|].
    change (PyStr.contains
              (l' +:+ PyStr.nl +:+ PyStr.unlines (l'' :: ls)) sub).
    do 2 apply contains_append_r. by apply IH.
Qed.

(** The slices of the code are the first and the last characters. *)
Lemma slice_to_first_chars (n : nat) (s : string) :
  PyStr.slice_to n s = Spec.first_chars n s.
Proof.
  unfold PyStr.slice_to, Spec.first_chars.
  revert n. induction s as [|c s IH]; intros [|n]; simpl; try done.
  by rewrite IH.
Qed.

Lemma substring_drop (k n : nat) (s : string) :
  String.length s <= k + n ->
  String.substring k n s
  = string_of_list_ascii (drop k (list_ascii_of_string s)).
Proof.
  revert k n. induction s as [|c s IH]; intros k n Hlen; simpl in *.
  - by destruct k, n.
  - destruct k as [|k]; simpl.
    + destruct n as [|n]; [lia|]. simpl. f_equal.
      rewrite (IH 0 n) by lia. done.
    + apply IH. lia.
Qed.

Lemma length_list_ascii (s : string) :
  length (list_ascii_of_string s) = String.length s.
Proof. induction s; simpl; congruence. Qed.

Lemma slice_last_last_chars (n : nat) (s : string) :
  PyStr.slice_last n s = Spec.last_chars n s.
Proof.
  unfold PyStr.slice_last, Spec.last_chars.
  rewrite length_list_ascii. apply substring_drop. lia.
Qed.

Example strip_name : PyStr.strip ("  Name" +:+ PyStr.nl) = "Name".
Proof. reflexivity. Qed.

Example strip_blank : PyStr.strip "   " = EmptyString.
Proof. reflexivity. Qed.

Example alphaborn_zephyrix :
  PyStr.slice_to 3 "Alphaborn" +:+ PyStr.slice_last 3 "Zephyrix" = "Alprix".
Proof. reflexivity. Qed.

Example short_names :
  PyStr.slice_to 3 "Al" +:+ PyStr.slice_last 3 "x" = "Alx".
Proof. reflexivity. Qed.

(** ** The extractor *)

(** What the scan does on one item, by its kind. *)
Lemma scan_other (it : json) (rest : list json) :
  Spec.other_item it = true ->
  App.scan_images (it :: rest) = App.scan_images rest.
Proof.
  unfold Spec.other_item, Spec.field. intros Hit.
  destruct it as [| | | | |?|m]; try done. simpl.
  destruct (m !! "type") as [ty|] eqn:Hty; [|done]. simpl.
  destruct (eq_str ty "image_url"); [|done].
  unfold App.image_url_of. simpl.
  destruct (m !! "image_url") as [iu|]; [|done]. simpl in *.
  destruct iu as [| | | | |?|mu]; try done. simpl in *.
  destruct (mu !! "url") as [u|]; [|done]. simpl in *.
  destruct u as [| | | |u|?|?]; try done. simpl.
  unfold PyStr.startswith. by destruct (String.prefix _ u).
Qed.

Lemma scan_data_image (it : json) (rest : list json) (u : string) :
  Spec.data_image_url it = Some u ->
  App.scan_images (it :: rest) =
    match PyStr.partition "," u with
    | Some (_, payload) => inr (Some payload)
    | None => inl IndexError
    end.
Proof.
  unfold Spec.data_image_url, Spec.field. intros Hit.
  destruct it as [| | | | |?|m]; try done. simpl.
  destruct (m !! "type") as [ty|] eqn:Hty; [|done]. simpl.
  destruct ty as [| | | |ty|?|?]; try done. simpl.
  destruct (String.eqb ty "image_url"); [|done].
  unfold App.image_url_of. simpl.
  destruct (m !! "image_url") as [iu|]; [|done]. simpl in *.
  destruct iu as [| | | | |?|mu]; try done. simpl in *.
  destruct (mu !! "url") as [v|]; [|done]. simpl in *.
  destruct v as [| | | |v|?|?]; try done. simpl.
  unfold PyStr.startswith.
  destruct (String.prefix _ v); [|done]. injection Hit as ->. simpl.
  unfold PyStr.split1. by destruct (PyStr.partition "," u) as [[? ?]|].
Qed.

(** The scan of a scannable list is decided by its first data image. *)
Lemma scan_scannable (imgs : list json) :
  Spec.scannable imgs ->
  App.scan_images imgs =
    match Spec.first_data_image imgs with
    | None => inr None
    | Some u =>
        match PyStr.partition "," u with
        | Some (_, payload) => inr (Some payload)
        | None => inl IndexError
        end
    end.
Proof.
  unfold Spec.scannable.
  induction imgs as [|it rest IH]; [done|].
  cbn [Spec.before_first Spec.first_data_image].
  destruct (Spec.data_image_url it) as [u|] eqn:Hit.
  - intros _. by apply scan_data_image.
  - intros [Hother Hrest]%Forall_cons. rewrite scan_other by done. auto.
Qed.

Lemma extract_unfold (r : response) :
  App.extract_image_from_response r =
    match Spec.first_message r with
    | None => inr (None, None)
    | Some m =>
        image_data ← App.scan_images (Spec.media m);
        mret (image_data, Spec.free_text m)
    end.
Proof.
  unfold App.extract_image_from_response, Spec.first_message.
  destruct (choices r) as [[|first ?]|]; try done.
  destruct (choice_message first) as [m|]; [|done].
  replace (if App.truthy (msg_text m) then msg_text m else None)
    with (Spec.free_text m)
    by (unfold Spec.free_text; by destruct (msg_text m) as [[|? ?]|]).
  unfold Spec.media. by destruct (images m) as [[|? ?]|].
Qed.

(** The extracted text is never the empty string. *)
Lemma extract_text_truthy (r : response) (img txt : option string) :
  App.extract_image_from_response r = inr (img, txt) ->
  App.truthy txt = false -> txt = None.
Proof.
  rewrite extract_unfold.
  destruct (Spec.first_message r) as [m|]; [|by intros [= <- <-]].
  destruct (App.scan_images (Spec.media m)); [done|].
  intros [= <- <-]. unfold Spec.free_text.
  by destruct (msg_text m) as [[|? ?]|].
Qed.

(** Two examples of the specification: a message without an [images]
    field has no image, and an empty candidate list has no image and no
    text. *)
Example extract_without_images :
  App.extract_image_from_response (Sample.answer (Some "Name") None)
  = inr (None, Some "Name").
Proof. reflexivity. Qed.

Example extract_without_candidates :
  App.extract_image_from_response (Response (Some [])) = inr (None, None).
Proof. reflexivity. Qed.

(** ** Running the handlers *)

(** Unfolds the monad and the primitive effects, and nothing else. *)
Ltac run_M :=
  cbv [mbind M_bind mret M_ret try_except lift raise sys_exit getenv
       exists_ print open_w write makedirs read_file App.uuid4
       App.path_exists App.chat_completions_create App.encode_image
       Cli.encode_image].

(** Case analysis on every branch a run can take. *)
Ltac branches := repeat (case_match; simplify_eq/=; try done).

(** Decides the [name] field by whether extraction found text. *)
Ltac name_case :=
  match goal with
  | He : App.extract_image_from_response _ = inr (_, ?txt),
    Ht : App.truthy ?txt = true |- _ =>
      destruct txt; [reflexivity | discriminate Ht]
  | He : App.extract_image_from_response _ = inr (_, ?txt),
    Ht : App.truthy ?txt = false |- _ =>
      rewrite (extract_text_truthy _ _ _ He Ht); reflexivity
  end.

Lemma not_is_Some_None {A : Type} : ~ is_Some (@None A).
Proof. by intros [? ?]. Qed.

(** ** The loop of the tool, and both extractors against the
    specification *)

Section ToolScan.
Context {rt : Runtime}.

Lemma save_first_other (it : json) (rest : list json) (out : string)
    (w : world) :
  Spec.other_item it = true ->
  Cli.save_first_image (it :: rest) out w = Cli.save_first_image rest out w.
Proof.
  unfold Spec.other_item, Spec.field. intros Hit.
  destruct it as [| | | | |?|m]; try done.
  cbn -[Cli.save_first_image]. simpl.
  unfold mbind, M_bind, lift. simpl.
  destruct (m !! "type") as [ty|] eqn:Hty; [|done]. simpl.
  destruct (eq_str ty "image_url"); [|done].
  unfold App.image_url_of. simpl.
  destruct (m !! "image_url") as [iu|]; [|done]. simpl in *.
  destruct iu as [| | | | |?|mu]; try done. simpl in *.
  destruct (mu !! "url") as [u|]; [|done]. simpl in *.
  destruct u as [| | | |u|?|?]; try done. simpl.
  unfold PyStr.startswith. by destruct (String.prefix _ u).
Qed.

(** At the first data image the tool splits the URL, makes the directory
    of the output, opens the output, decodes and writes. *)
Lemma save_first_data_image (it : json) (rest : list json) (u out : string)
    (w : world) :
  Spec.data_image_url it = Some u ->
  Cli.save_first_image (it :: rest) out w = Spec.tool_saves u out w.
Proof.
  unfold Spec.data_image_url, Spec.field, Spec.tool_saves. intros Hit.
  destruct it as [| | | | |?|m]; try done. simpl.
  unfold mbind, M_bind, lift. simpl.
  destruct (m !! "type") as [ty|] eqn:Hty; [|done]. simpl.
  destruct ty as [| | | |ty|?|?]; try done. simpl.
  destruct (String.eqb ty "image_url"); [|done].
  unfold App.image_url_of. simpl.
  destruct (m !! "image_url") as [iu|]; [|done]. simpl in *.
  destruct iu as [| | | | |?|mu]; try done. simpl in *.
  destruct (mu !! "url") as [v|]; [|done]. simpl in *.
  destruct v as [| | | |v|?|?]; try done. simpl.
  unfold PyStr.startswith.
  destruct (String.prefix _ v); [|done]. injection Hit as ->. simpl.
  unfold PyStr.split1.
  destruct (PyStr.partition "," u) as [[head payload]|]; [|done]. simpl.
  unfold Spec.printed, with_files, with_stdout, with_dirs.
  destruct (PyStr.truthy (Cli.dirname out)); run_M; simpl;
    destruct (b64decode payload); simpl; by rewrite ?insert_insert_eq.
Qed.

Lemma save_first_scannable (imgs : list json) (out : string) (w : world) :
  Spec.scannable imgs ->
  Cli.save_first_image imgs out w =
    match Spec.first_data_image imgs with
    | None => Cli.no_images w
    | Some u => Spec.tool_saves u out w
    end.
Proof.
  unfold Spec.scannable.
  induction imgs as [|it rest IH]; [done|].
  cbn [Spec.before_first Spec.first_data_image].
  destruct (Spec.data_image_url it) as [u|] eqn:Hit.
  - intros _. by apply save_first_data_image.
  - intros [Hother Hrest]%Forall_cons.
    rewrite save_first_other by done. auto.
Qed.

(** The tool on a whole response: it prints the text of the first
    message, then saves the first data image. *)
Lemma extract_and_save_unfold (r : response) (m : message) (out : string)
    (w : world) :
  Spec.first_message r = Some m ->
  Spec.scannable (Spec.media m) ->
  Cli.extract_and_save_image r out w =
    let w0 :=
      match Spec.free_text m with
      | Some text => Spec.printed ["Model response: " +:+ text] w
      | None => w
      end in
    match Spec.first_data_image (Spec.media m) with
    | None => Cli.no_images w0
    | Some u => Spec.tool_saves u out w0
    end.
Proof.
  intros Hm Hscan. unfold Cli.extract_and_save_image.
  unfold Spec.first_message in Hm.
  destruct (choices r) as [[|first ?]|]; try done. rewrite Hm.
  unfold mbind, M_bind.
  assert (Hprint :
    (if App.truthy (msg_text m)
     then print ("Model response: " +:+ App.fmt (msg_text m))
     else mret ()) w
    = (inr (), match Spec.free_text m with
               | Some text => Spec.printed ["Model response: " +:+ text] w
               | None => w
               end)).
  { unfold Spec.free_text. by destruct (msg_text m) as [[|? ?]|]. }
  rewrite Hprint. clear Hprint.
  unfold Spec.media in *.
  destruct (images m) as [[|it imgs]|]; try done.
  apply save_first_scannable. exact Hscan.
Qed.

(** C1, amended. Response extraction: on a response whose media list
    can be scanned (the items up to the first inline data-URI image are
    well formed), the web extractor returns exactly the fields of the
    specification: both empty when there is no candidate message;
    otherwise the free text of the first message (if present) and, as the
    image, what follows the first comma of the first item, in list order,
    that is an [image_url] whose URL begins with [data:image], or nothing
    when no item is one. The tool selects the same item: without an image
    it reports failure and writes nothing, and with one it never reports
    that no image was found, and what it saves on success is the decoding
    of that payload. *)
Theorem extract_image_from_response_spec
    (r : response) (img txt : option string) :
  Spec.scannable (Spec.response_media r) ->
  (Spec.extraction r img txt <->
   App.extract_image_from_response r = inr (img, txt))
  /\ (Spec.extraction r img txt ->
      forall (out : string) (w : world),
        match img with
        | None =>
            exists w' : world,
              Cli.extract_and_save_image r out w = (inr false, w')
              /\ files w' = files w /\ dirs w' = dirs w
        | Some payload =>
            (Cli.extract_and_save_image r out w).1 <> inr false
            /\ ((Cli.extract_and_save_image r out w).1 = inr true ->
                exists decoded : string,
                  b64decode payload = inr decoded
                  /\ files (Cli.extract_and_save_image r out w).2 !! out
                     = Some decoded)
        end).
Proof.
  intros Hscan. unfold Spec.response_media in Hscan. split; [split|].
  - intros Hext. rewrite extract_unfold.
    destruct Hext as [Hnone | m Hm Hfirst | m u payload Hm Hfirst Hpay];
      rewrite ?Hnone, ?Hm in *; [done| |].
    + by rewrite (scan_scannable _ Hscan), Hfirst.
    + rewrite (scan_scannable _ Hscan), Hfirst.
      destruct Hpay as (head & -> & Hhead).
      by rewrite (partition_cut _ _ _ Hhead).
  - rewrite extract_unfold.
    destruct (Spec.first_message r) as [m|] eqn:Hm.
    + rewrite (scan_scannable _ Hscan).
      destruct (Spec.first_data_image (Spec.media m)) as [u|] eqn:Hfirst.
      * destruct (PyStr.partition "," u) as [[head payload]|] eqn:Hpart;
          [|done].
        intros [= <- <-]. apply (Spec.image r m u payload); [done..|].
        exists head. by apply partition_inv.
      * intros [= <- <-]. by apply Spec.no_image.
    + intros [= <- <-]. by apply Spec.no_candidate.
  - intros Hext out w.
    destruct Hext as [Hnone | m Hm Hfirst | m u payload Hm Hfirst Hpay].
    + unfold Cli.extract_and_save_image, Spec.first_message in *. run_M.
      destruct (choices r) as [[|first ?]|];
        [| rewrite Hnone |]; by eexists.
    + rewrite Hm in Hscan.
      rewrite (extract_and_save_unfold _ _ _ _ Hm Hscan), Hfirst.
      cbn zeta. unfold Cli.no_images. run_M.
      eexists. split; [reflexivity|]. by destruct (Spec.free_text m).
    + rewrite Hm in Hscan.
      rewrite (extract_and_save_unfold _ _ _ _ Hm Hscan), Hfirst.
      cbn zeta. unfold Spec.tool_saves.
      destruct Hpay as (head & -> & Hhead).
      rewrite (partition_cut _ _ _ Hhead).
      destruct (b64decode payload) as [e|decoded] eqn:Hdecode;
        cbn [fst snd]; [done|].
      split; [done|]. intros _. exists decoded. split; [done|].
      unfold Spec.printed.
      destruct (Spec.free_text m), (PyStr.truthy (Cli.dirname out));
        cbn [files with_stdout with_files with_dirs];
        by rewrite lookup_insert_eq.
Qed.

End ToolScan.

(** The example of the specification: text [Name] and the data URI
    [data:image/png;base64,AAAA] give image [AAAA] and text [Name]. *)
Lemma extract_image_from_response_spec_witness :
  Spec.scannable (Spec.response_media Sample.named_response)
  /\ Spec.extraction Sample.named_response (Some "AAAA") (Some "Name")
  /\ App.extract_image_from_response Sample.named_response
     = inr (Some "AAAA", Some "Name").
Proof.
  assert (Hscan : Spec.scannable (Spec.response_media Sample.named_response))
    by (vm_compute; constructor).
  assert (Hext : Spec.extraction Sample.named_response
                   (Some "AAAA") (Some "Name")).
  { apply (Spec.image _ Sample.named_message
             "data:image/png;base64,AAAA" "AAAA");
      [reflexivity | vm_compute; reflexivity |].
    exists "data:image/png;base64". split; reflexivity. }
  split; [exact Hscan|]. split; [exact Hext|].
  exact (proj1 (proj1 (extract_image_from_response_spec
                         (rt := Sample.runtime (inr Sample.named_response))
                         _ _ _ Hscan)) Hext).
Defined.

(** C1, as stated, fails: the one media item of this response has no
    [type], so that no item matches and the specification gives no image
    and the text; the extractor raises a KeyError instead of returning. *)
Lemma extract_raises_without_match :
  Spec.first_message Cases.untyped_response = Some Cases.untyped_message
  /\ Spec.first_data_image (Spec.media Cases.untyped_message) = None
  /\ Spec.extraction Cases.untyped_response None (Some "Name")
  /\ App.extract_image_from_response Cases.untyped_response
     = inl (KeyError "type").
Proof.
  split; [reflexivity|]. split; [reflexivity|]. split; [|reflexivity].
  by apply (Spec.no_image _ Cases.untyped_message).
Qed.

(** C9, as stated, fails: a response may hold an [image_url] item whose
    URL starts with [data:image] and has no comma, and extraction still
    returns, because an earlier item matched and ended the scan. *)
Lemma extract_returns_despite_commaless_item :
  Spec.first_message Sample.shadowed_response
  = Some (Message (Some "Name")
            (Some [Sample.image_item "data:image/png;base64,AAAA";
                   Sample.image_item "data:image/png"]))
  /\ Spec.data_image_url (Sample.image_item "data:image/png")
     = Some "data:image/png"
  /\ Spec.occurs "," "data:image/png" = false
  /\ App.extract_image_from_response Sample.shadowed_response
     = inr (Some "AAAA", Some "Name").
Proof. repeat split; vm_compute; reflexivity. Qed.

(** C9, amended. Extractor partiality on malformed data URIs: when the
    first item of the scannable media list of the first message that is an
    [image_url] with a URL starting with [data:image] has no comma in its
    URL, extraction does not return: an IndexError escapes both the web
    extractor and the tool's [extract_and_save_image], which writes no
    file; when that URL has a comma the web extractor returns what follows
    the first one. *)
Theorem extract_commaless_first_match {rt : Runtime}
    (r : response) (m : message) (u : string) :
  Spec.first_message r = Some m ->
  Spec.scannable (Spec.media m) ->
  Spec.first_data_image (Spec.media m) = Some u ->
  if Spec.occurs "," u then
    exists payload : string,
      Spec.payload_of u payload
      /\ App.extract_image_from_response r
         = inr (Some payload, Spec.free_text m)
  else
    App.extract_image_from_response r = inl IndexError
    /\ forall (out : string) (w : world),
         exists w' : world,
           Cli.extract_and_save_image r out w = (inl IndexError, w')
           /\ files w' = files w /\ dirs w' = dirs w.
Proof.
  intros Hm Hscan Hfirst.
  destruct (Spec.occurs "," u) eqn:Hu.
  - destruct (partition_some _ _ Hu) as (head & payload & Hpart & Hcut & Hhead).
    exists payload. split; [by exists head|].
    by rewrite extract_unfold, Hm, (scan_scannable _ Hscan), Hfirst, Hpart.
  - split.
    + by rewrite extract_unfold, Hm, (scan_scannable _ Hscan), Hfirst,
        (partition_none _ _ Hu).
    + intros out w.
      rewrite (extract_and_save_unfold _ _ _ _ Hm Hscan), Hfirst.
      unfold Spec.tool_saves. rewrite (partition_none _ _ Hu).
      eexists. split; [reflexivity|]. by destruct (Spec.free_text m).
Qed.

Lemma extract_commaless_first_match_witness :
  Spec.first_message Sample.commaless_response
  = Some Sample.commaless_message
  /\ Spec.scannable (Spec.media Sample.commaless_message)
  /\ Spec.first_data_image (Spec.media Sample.commaless_message)
     = Some "data:image/png"
  /\ App.extract_image_from_response Sample.commaless_response
     = inl IndexError.
Proof.
  assert (Hscan : Spec.scannable (Spec.media Sample.commaless_message))
    by (vm_compute; constructor).
  assert (Hfirst : Spec.first_data_image (Spec.media Sample.commaless_message)
                   = Some "data:image/png") by (vm_compute; reflexivity).
  split; [reflexivity|]. split; [exact Hscan|]. split; [exact Hfirst|].
  exact (proj1 (extract_commaless_first_match
                  (rt := Sample.runtime (inr Sample.commaless_response))
                  Sample.commaless_response Sample.commaless_message
                  "data:image/png" eq_refl Hscan Hfirst)).
Defined.

(** ** Files on disk *)

Section Disk.
Context {rt : Runtime}.

(** A file on disk exists, whatever [os.stat] says of missing paths. *)
Lemma path_exists_file (w : world) (p data : string) :
  files w !! p = Some data -> App.path_exists p w = (inr true, w).
Proof.
  intros Hfile. unfold App.path_exists. rewrite Hfile.
  by rewrite bool_decide_eq_true_2 by eauto.
Qed.

Lemma split_no_sep (sep : ascii) (s : string) :
  Spec.occurs sep s = false -> PyStr.split sep s = [s].
Proof.
  induction s as [|c s IH]; simpl; [done|].
  intros [Hc Hs]%orb_false_iff. by rewrite Hc, (IH Hs).
Qed.

Lemma occurs_append (sep : ascii) (a b : string) :
  Spec.occurs sep (a +:+ b) = Spec.occurs sep a || Spec.occurs sep b.
Proof.
  induction a as [|c a IH]; [done|].
  change (Spec.occurs sep (String c (a +:+ b))
          = Spec.occurs sep (String c a) || Spec.occurs sep b).
  simpl. by rewrite IH, orb_assoc.
Qed.

(** The image of a plain identifier is the file of that name directly
    under the directory of the images. *)
Lemma image_file_plain (image_id : string) :
  Spec.plain image_id -> App.image_file image_id = Spec.image_path image_id.
Proof.
  unfold Spec.plain, Spec.image_path. intros Hplain.
  assert (Hrel : Spec.occurs "/" (image_id +:+ ".png") = false)
    by (by rewrite occurs_append, Hplain).
  unfold App.image_file, App.path_join, App.path_parts.
  rewrite (split_no_sep _ _ Hrel).
  assert (Hstart : PyStr.startswith (image_id +:+ ".png") "/" = false).
  { destruct image_id as [|c image_id]; [done|].
    apply orb_false_iff in Hplain as [Hc _].
    change (PyStr.startswith (String c (image_id +:+ ".png")) "/" = false).
    unfold PyStr.startswith. cbn [String.prefix].
    by destruct (ascii_dec "/" c) as [<-|]. }
  rewrite Hstart.
  assert (Hkeep :
    negb (String.eqb (image_id +:+ ".png") EmptyString
          || String.eqb (image_id +:+ ".png") ".") = true).
  { destruct image_id as [|c [|d image_id]]; [done| |].
    - change (String c EmptyString +:+ ".png") with (String c ".png").
      simpl. by destruct (Ascii.eqb c ".").
    - change (String c (String d image_id) +:+ ".png")
        with (String c (String d (image_id +:+ ".png"))).
      simpl. by destruct (Ascii.eqb c "."). }
  cbn [List.filter]. rewrite Hkeep. reflexivity.
Qed.

End Disk.

(** Runs the two existence tests of a breeding whose parents are on disk. *)
Ltac parents_on_disk H1 H2 :=
  unfold App.breed_animals;
  unfold mbind at 1 2, M_bind at 1 2;
  rewrite (path_exists_file _ _ _ H1); cbn [negb];
  unfold mbind at 1, M_bind at 1;
  rewrite (path_exists_file _ _ _ H2); cbn [negb];
  unfold mret at 1, M_ret at 1.

(** ** The credential *)

Lemma no_credential_falsy (w : world) :
  Spec.no_credential w <->
  App.truthy (environ w !! "OPENROUTER_API_KEY") = false.
Proof.
  unfold Spec.no_credential. split; [by intros [-> | ->]|].
  destruct (environ w !! "OPENROUTER_API_KEY") as [[|? ?]|]; auto; done.
Qed.

Lemma app_get_client_unset (w : world) :
  Spec.no_credential w ->
  App.get_client w = (inl Spec.config_error, w).
Proof.
  intros Hkey%no_credential_falsy. unfold App.get_client. run_M.
  by rewrite Hkey.
Qed.

Lemma cli_get_client_unset (w : world) :
  Spec.no_credential w ->
  Cli.get_client w = (inl (SystemExit 1), Spec.printed Spec.config_lines w).
Proof.
  intros Hkey%no_credential_falsy. unfold Cli.get_client. run_M.
  rewrite Hkey. cbn. unfold Spec.printed, with_stdout. cbn.
  by rewrite <- app_assoc.
Qed.

Lemma cli_get_client_set (w : world) :
  App.truthy (environ w !! "OPENROUTER_API_KEY") = true ->
  Cli.get_client w = (inr (Spec.client_of w), w).
Proof. intros Hkey. unfold Cli.get_client. run_M. by rewrite Hkey. Qed.

(** C2, as stated, fails: with the credential unset, breeding from parents
    that are not on disk answers 404 and loading the state answers 200,
    neither of them a configuration error; and the ValueError of
    [random_prompt] leaves the handler instead of becoming a response. *)
Lemma missing_credential_not_always_config_error :
  Spec.no_credential Sample.bare
  /\ App.breed_animals (rt := Sample.runtime (inr Sample.named_response))
       ∅ Sample.bare
     = (inr (App.HttpResponse 404
               (JObj {[ "error" := JStr "Parent images not found" ]})),
        Sample.bare)
  /\ App.load_state (rt := Sample.runtime (inr Sample.named_response))
       Sample.bare
     = (inr (App.HttpResponse 200 Spec.empty_state), Sample.bare)
  /\ App.random_prompt (rt := Sample.runtime (inr Sample.named_response))
       Sample.bare
     = (inl Spec.config_error, Sample.bare).
Proof. split; [by left|]. repeat split; vm_compute; reflexivity. Qed.

Section Credential.
Context {rt : Runtime}.

(** C2, amended. Missing credential handling: every operation that builds
    the client while OPENROUTER_API_KEY is absent (the web handlers
    random-prompt and generate, breed when both parent files exist, and
    the three generating modes of the tool) fails with the configuration
    error before any network call and without writing a file: the world is
    unchanged but for what the tool prints, and the tool exits with code
    1. *)
Theorem missing_credential_fails_before_network (w : world) :
  Spec.no_credential w ->
  App.random_prompt w = (inl Spec.config_error, w)
  /\ (forall data : gmap string string,
        App.generate_animal data w = (inl Spec.config_error, w))
  /\ (forall (data : gmap string string) (img1 img2 : string),
        files w !! App.image_file (App.fmt (data !! "parent1_id"))
        = Some img1 ->
        files w !! App.image_file (App.fmt (data !! "parent2_id"))
        = Some img2 ->
        App.breed_animals data w = (inl Spec.config_error, w))
  /\ (forall a : Cli.args,
        App.truthy (Cli.arg_input a) = true
        \/ App.truthy (Cli.arg_input2 a) = false ->
        Cli.exit_status a w = (1%Z, Spec.printed Spec.config_lines w)).
Proof.
  intros Hkey. repeat split.
  - unfold App.random_prompt. unfold mbind at 1, M_bind at 1.
    by rewrite (app_get_client_unset _ Hkey).
  - intros data. unfold App.generate_animal. unfold mbind at 1, M_bind at 1.
    by rewrite (app_get_client_unset _ Hkey).
  - intros data img1 img2 H1 H2. parents_on_disk H1 H2.
    unfold mbind at 1, M_bind at 1.
    by rewrite (app_get_client_unset _ Hkey).
  - intros a Hmode. unfold Cli.exit_status, Cli.main.
    unfold mbind at 1, M_bind at 1.
    destruct (App.truthy (Cli.arg_input a)) eqn:Hin; cbn [andb].
    + destruct (App.truthy (Cli.arg_input2 a)).
      * unfold Cli.generate_from_two_images. unfold mbind at 1, M_bind at 1.
        by rewrite (cli_get_client_unset _ Hkey).
      * unfold Cli.generate_from_image. unfold mbind at 1, M_bind at 1.
        by rewrite (cli_get_client_unset _ Hkey).
    + destruct Hmode as [? | ->]; [done|].
      unfold Cli.generate_from_text. unfold mbind at 1, M_bind at 1.
      by rewrite (cli_get_client_unset _ Hkey).
Qed.

End Credential.

Lemma missing_credential_fails_before_network_witness :
  Spec.no_credential Sample.bare
  /\ App.random_prompt (rt := Sample.runtime (inr Sample.named_response))
       Sample.bare
     = (inl Spec.config_error, Sample.bare)
  /\ Cli.exit_status (rt := Sample.runtime (inr Sample.named_response))
       (Cli.Args "a fox" Cli.DEFAULT_OUTPUT None None Cli.DEFAULT_MODEL)
       Sample.bare
     = (1%Z, Spec.printed Spec.config_lines Sample.bare).
Proof.
  assert (Hkey : Spec.no_credential Sample.bare) by (by left).
  pose proof (missing_credential_fails_before_network
                (rt := Sample.runtime (inr Sample.named_response))
                Sample.bare Hkey) as (Hweb & _ & _ & Htool).
  split; [exact Hkey|]. split; [exact Hweb|].
  apply Htool. by right.
Defined.

(** ** Breeding: the parents are checked first *)

Section Parents.
Context {rt : Runtime}.

Lemma path_exists_absent (w : world) (p : string) :
  Spec.absent w p -> App.path_exists p w = (inr false, w).
Proof.
  intros [[Hfile Hdir] Hstat]. unfold App.path_exists.
  rewrite Hfile, Hstat.
  rewrite (bool_decide_eq_false_2 (is_Some None)) by apply not_is_Some_None.
  by rewrite bool_decide_eq_false_2.
Qed.

Lemma path_exists_testable (w : world) (p : string) :
  Spec.testable w p -> exists b : bool, App.path_exists p w = (inr b, w).
Proof.
  intros Htest. unfold App.path_exists.
  destruct (files w !! p) as [data|] eqn:Hfile.
  { exists true. by rewrite bool_decide_eq_true_2 by eauto. }
  rewrite (bool_decide_eq_false_2 (is_Some None)) by apply not_is_Some_None.
  destruct (decide (p ∈ dirs w)) as [Hdir|Hdir].
  { exists true. by rewrite bool_decide_eq_true_2. }
  rewrite bool_decide_eq_false_2 by done.
  exists false. by rewrite Htest.
Qed.

(** X20. Breeding from a parent that is not on disk, named by a plain
    identifier. When the existence test finds nothing at the path of such
    a parent, the web handler answers 404 with the world unchanged;
    whenever the file of such a parent is missing, no request is sent,
    however the handler ends; and the tool, given an input that names
    nothing, exits with status 1 having printed only its error, with no
    request sent and no file written. *)
Theorem breed_missing_parent_not_found (w : world) :
  (forall data : gmap string string,
     let id1 := App.fmt (data !! "parent1_id") in
     let id2 := App.fmt (data !! "parent2_id") in
     Spec.testable w (App.image_file id1) ->
     (Spec.plain id1 /\ Spec.absent w (Spec.image_path id1))
     \/ (Spec.plain id2 /\ Spec.absent w (Spec.image_path id2)) ->
     App.breed_animals data w = (inr Shape.not_found_response, w))
  /\ (forall data : gmap string string,
        let id1 := App.fmt (data !! "parent1_id") in
        let id2 := App.fmt (data !! "parent2_id") in
        (Spec.plain id1 /\ files w !! Spec.image_path id1 = None)
        \/ (Spec.plain id2 /\ files w !! Spec.image_path id2 = None) ->
        calls (App.breed_animals data w).2 = calls w)
  /\ (forall (a : Cli.args) (image1 image2 : string),
        Cli.arg_input a = Some image1 -> PyStr.truthy image1 = true ->
        Cli.arg_input2 a = Some image2 -> PyStr.truthy image2 = true ->
        Spec.names_nothing w image1
        \/ (is_Some (files w !! image1) /\ Spec.names_nothing w image2) ->
        exists w' : world,
          Cli.exit_status a w = (1%Z, w')
          /\ calls w' = calls w /\ files w' = files w
          /\ w' = Spec.printed
                    (if App.truthy (environ w !! "OPENROUTER_API_KEY") then
                       [ "ERROR: Input image not found: "
                         +:+ match files w !! image1 with
                             | None => image1
                             | Some _ => image2
                             end ]
                     else Spec.config_lines) w).
Proof.
  split; [|split].
  - intros data id1 id2 Htest Hmissing. unfold App.breed_animals.
    fold id1 id2. unfold mbind at 1 2, M_bind at 1 2.
    destruct (path_exists_testable _ _ Htest) as [found1 Hfound1].
    rewrite Hfound1. destruct found1; cbn [negb]; [|done].
    destruct Hmissing as [[Hplain Hp] | [Hplain Hp]];
      rewrite <- (image_file_plain _ Hplain) in Hp.
    + by rewrite (path_exists_absent _ _ Hp) in Hfound1.
    + unfold mbind at 1, M_bind at 1.
      by rewrite (path_exists_absent _ _ Hp).
  - intros data id1 id2 Hmissing.
    assert (Hfile : files w !! App.image_file id1 = None
                    \/ files w !! App.image_file id2 = None).
    { destruct Hmissing as [[Hplain Hp] | [Hplain Hp]];
        rewrite <- (image_file_plain _ Hplain) in Hp; auto. }
    clear Hmissing. subst id1 id2.
    unfold App.breed_animals, App.get_client, App.save_image. run_M.
    branches. all: destruct Hfile; congruence.
  - intros a image1 image2 Hin Ht1 Hin2 Ht2 Hmissing.
    eexists. split; [|split; [|split]]; [| | |reflexivity]; [|done|done].
    unfold Cli.exit_status, Cli.main. unfold mbind at 1, M_bind at 1.
    rewrite Hin, Hin2. cbn [App.truthy App.fmt]. rewrite Ht1, Ht2. cbn [andb].
    unfold Cli.generate_from_two_images. unfold mbind at 1, M_bind at 1.
    destruct (App.truthy (environ w !! "OPENROUTER_API_KEY")) eqn:Hkey.
    + rewrite (cli_get_client_set _ Hkey). run_M.
      destruct Hmissing as [[H1 _] | [[img1 H1] [H2 _]]]; rewrite H1.
      * by rewrite (bool_decide_eq_false_2 (is_Some None))
          by apply not_is_Some_None.
      * rewrite bool_decide_eq_true_2 by eauto. cbn [negb]. rewrite H2.
        by rewrite (bool_decide_eq_false_2 (is_Some None))
          by apply not_is_Some_None.
    + rewrite cli_get_client_unset; [done|]. by apply no_credential_falsy.
Qed.

End Parents.

Lemma breed_missing_parent_not_found_witness :
  Spec.plain (App.fmt (Sample.breed_data !! "parent1_id"))
  /\ Spec.absent (rt := Sample.runtime (inr Sample.named_response))
       Sample.keyed
       (Spec.image_path (App.fmt (Sample.breed_data !! "parent1_id")))
  /\ App.breed_animals (rt := Sample.runtime (inr Sample.named_response))
       Sample.breed_data Sample.keyed
     = (inr Shape.not_found_response, Sample.keyed).
Proof.
  assert (Hplain : Spec.plain (App.fmt (Sample.breed_data !! "parent1_id")))
    by (vm_compute; reflexivity).
  assert (Habsent :
    Spec.absent (rt := Sample.runtime (inr Sample.named_response)) Sample.keyed
      (Spec.image_path (App.fmt (Sample.breed_data !! "parent1_id")))).
  { split; [split|]; [vm_compute; reflexivity | | vm_compute; reflexivity].
    cbn [dirs Sample.keyed]. apply not_elem_of_empty. }
  split; [exact Hplain|]. split; [exact Habsent|].
  apply (proj1 (breed_missing_parent_not_found
                  (rt := Sample.runtime (inr Sample.named_response))
                  Sample.keyed) Sample.breed_data).
  - intros _. vm_compute. reflexivity.
  - left. split; [exact Hplain | exact Habsent].
Defined.

(** C3, at the failing input: the first parent of a breed request is an
    identifier of 300 characters, for which no image is on disk. The
    existence test itself raises, outside of any [try]: the handler does
    not answer 404, an OSError leaves it. No request was sent. *)
Theorem breed_overlong_parent_raises :
  files Sample.stocked !! App.image_file Cases.overlong_id = None
  /\ App.breed_animals (rt := Sample.runtime (inr Sample.named_response))
       {[ "parent1_id" := Cases.overlong_id; "parent2_id" := "bbbb2222" ]}
       Sample.stocked
     = (inl (Exception "OSError"
               ("[Errno 36] File name too long: '"
                +:+ App.image_file Cases.overlong_id +:+ "'")),
        Sample.stocked).
Proof. split; vm_compute; reflexivity. Qed.

(** A parent path that is a directory passes the existence test, and
    reading it raises, again outside of any [try]. *)
Example breed_directory_parent_raises :
  App.breed_animals (rt := Sample.runtime (inr Sample.named_response))
    {[ "parent1_id" := "aaaa1111"; "parent2_id" := "album" ]}
    (with_dirs {[ "static/generated/album.png" ]} Sample.stocked)
  = (inl (Exception "IsADirectoryError"
            "[Errno 21] Is a directory: 'static/generated/album.png'"),
     with_dirs {[ "static/generated/album.png" ]} Sample.stocked).
Proof. vm_compute. reflexivity. Qed.

(** pathlib drops the single dots and the doubled slashes of an
    identifier, so that it names the file it names without them. *)
Example breed_dotted_parent_found :
  App.image_file "./aaaa1111" = "static/generated/aaaa1111.png"
  /\ App.image_file "sub//aaaa1111" = "static/generated/sub/aaaa1111.png"
  /\ App.image_file "/tmp/aaaa1111" = "/tmp/aaaa1111.png"
  /\ App.image_file "../aaaa1111" = "static/generated/../aaaa1111.png"
  /\ (App.breed_animals (rt := Sample.runtime (inr Sample.named_response))
        {[ "parent1_id" := "./aaaa1111"; "parent2_id" := "bbbb2222" ]}
        Sample.stocked).1
     = inr (App.HttpResponse 200
              (JObj {[ "id" := JStr "3f2b8c1d";
                       "name" := JStr "Name";
                       "image_url" := JStr "/static/generated/3f2b8c1d.png";
                       "parents" := JArr [JStr "./aaaa1111"; JStr "bbbb2222"] ]})).
Proof. repeat split; vm_compute; reflexivity. Qed.

(** The tool on two inputs of which the first is not on disk. *)
Example tool_missing_parent :
  Cli.exit_status (rt := Sample.runtime (inr Sample.named_response))
    (Cli.Args "a hybrid" "out/child.png" (Some "cat.jpg") (Some "dog.jpg")
       Cli.DEFAULT_MODEL)
    Sample.keyed
  = (1%Z, Spec.printed ["ERROR: Input image not found: cat.jpg"] Sample.keyed).
Proof. vm_compute. reflexivity. Qed.

(** ** Persisting the image *)

Section Persist.
Context {rt : Runtime}.

(** The [# Save image] block: the file is created when it is opened, and
    holds the decoded bytes only if decoding succeeds. *)
Lemma save_image_run (image_data : string) (w : world) :
  App.save_image image_data w =
    let image_id := PyStr.slice_to 8 (uuid4_str (uuids w)) in
    let w1 := with_uuids (S (uuids w)) w in
    match b64decode image_data with
    | inl e =>
        (inl e,
         with_files (<[App.image_file image_id := EmptyString]> (files w)) w1)
    | inr decoded =>
        (inr image_id,
         with_files (<[App.image_file image_id := decoded]> (files w)) w1)
    end.
Proof.
  unfold App.save_image. run_M. cbn.
  destruct (b64decode image_data); cbn; [done|].
  by rewrite insert_insert_eq.
Qed.

(** A payload that does not decode makes generation answer 500 and leaves
    the new file on disk, empty. *)
Lemma generate_decode_failure (data : gmap string string) (w : world)
    (answer : response) (payload cls msg : string) (txt : option string) :
  App.truthy (environ w !! "OPENROUTER_API_KEY") = true ->
  endpoint (length (calls w))
    (Spec.generate_request w
       (default "a cute fantasy animal" (data !! "prompt")))
  = inr answer ->
  App.extract_image_from_response answer = inr (Some payload, txt) ->
  PyStr.truthy payload = true ->
  b64decode payload = inl (Exception cls msg) ->
  exists w' : world,
    App.generate_animal data w
    = (inr (App.HttpResponse 500 (JObj {[ "error" := JStr msg ]})), w')
    /\ files w' = <[Spec.minted_file (uuids w) := EmptyString]> (files w).
Proof.
  intros Hkey Hanswer Hextract Hpayload Hdecode.
  unfold App.generate_animal, App.get_client. run_M.
  rewrite Hkey. cbn [negb].
  unfold Spec.generate_request, Spec.client_of in Hanswer. rewrite Hanswer.
  rewrite Hextract. cbn [App.truthy App.fmt]. rewrite Hpayload. cbn [negb].
  rewrite save_image_run. cbn zeta. rewrite Hdecode.
  eexists. split; reflexivity.
Qed.

(** Every other outcome of generation keeps the promise: a success stores
    the decoded bytes under the new identifier, and a failure that is not
    a decoding failure leaves the files as they were. *)
Lemma generate_files (data : gmap string string) (w w' : world)
    (r : res App.http_response) :
  App.generate_animal data w = (r, w') ->
  match r with
  | inr (App.HttpResponse 200 _) =>
      exists payload decoded : string,
        b64decode payload = inr decoded
        /\ files w' = <[Spec.minted_file (uuids w) := decoded]> (files w)
  | _ =>
      files w' = files w
      \/ exists (payload : string) (e : exn),
           b64decode payload = inl e
           /\ files w' = <[Spec.minted_file (uuids w) := EmptyString]> (files w)
  end.
Proof.
  unfold App.generate_animal, App.get_client. run_M.
  intros Hrun.
  destruct (negb (App.truthy (environ w !! "OPENROUTER_API_KEY")));
    [by simplify_eq/=; left|].
  destruct (endpoint _ _) as [[cls msg|code]|answer];
    [by simplify_eq/=; left..|].
  destruct (App.extract_image_from_response answer) as [[cls msg|code]|[img txt]];
    [by simplify_eq/=; left..|].
  destruct (negb (App.truthy img)); [by simplify_eq/=; left|].
  rewrite save_image_run in Hrun. cbn zeta in Hrun.
  destruct (b64decode (App.fmt img)) as [[cls msg|code]|decoded] eqn:Hdecode;
    simplify_eq/=; eauto.
Qed.

End Persist.

(** C4, at the failing input: the endpoint answers a generate request with
    the image [data:image/png;base64,AAA], which is not valid base64. The
    handler answers 500 with the decoder's message, and the file of the
    new identifier, absent before the request, exists afterwards and is
    empty. *)
Theorem decode_failure_leaves_empty_file :
  App.generate_animal (rt := Sample.runtime (inr Sample.bad_payload_response))
    ∅ Sample.keyed
  = (inr (App.HttpResponse 500 (JObj {[ "error" := JStr "Incorrect padding" ]})),
     World (environ Sample.keyed)
       {[ "static/generated/3f2b8c1d.png" := EmptyString ]} ∅
       [Spec.generate_request Sample.keyed "a cute fantasy animal"] [] 1)
  /\ files Sample.keyed !! "static/generated/3f2b8c1d.png" = None.
Proof. split; vm_compute; reflexivity. Qed.

(** The same payload reaches breeding and the tool the same way. *)
Example breed_decode_failure :
  files (App.breed_animals
           (rt := Sample.runtime (inr Sample.bad_payload_response))
           Sample.breed_data Sample.stocked).2
  !! "static/generated/3f2b8c1d.png" = Some EmptyString.
Proof. vm_compute. reflexivity. Qed.

Example tool_decode_failure :
  (Cli.exit_status (rt := Sample.runtime (inr Sample.bad_payload_response))
     (Cli.Args "a fox" "out/fox.png" None None Cli.DEFAULT_MODEL)
     Sample.keyed).1 = 1%Z
  /\ files (Cli.exit_status
              (rt := Sample.runtime (inr Sample.bad_payload_response))
              (Cli.Args "a fox" "out/fox.png" None None Cli.DEFAULT_MODEL)
              Sample.keyed).2
     !! "out/fox.png" = Some EmptyString.
Proof. split; vm_compute; reflexivity. Qed.

(** ** Names *)

Section Names.
Context {rt : Runtime}.

(** C5. Derived-name fallback: the name of every successful generation or
    breeding is the stripped text that extraction found in the answer of
    the endpoint; without text it is [Unknown Creature] for generation
    and, for breeding, the first three characters of the name of parent 1
    followed by the last three characters of the name of parent 2. *)
Theorem derived_name_fallback (data : gmap string string) (w w' : world)
    (resp : App.http_response) :
  App.status resp = 200%Z ->
  (App.generate_animal data w = (inr resp, w') ->
   exists (req : chat_request) (answer : response)
          (img txt : option string),
     calls w' = calls w ++ [req]
     /\ endpoint (length (calls w)) req = inr answer
     /\ App.extract_image_from_response answer = inr (img, txt)
     /\ Spec.name_of (App.body resp)
        = Some (JStr match txt with
                     | Some t => PyStr.strip t
                     | None => "Unknown Creature"
                     end))
  /\ (App.breed_animals data w = (inr resp, w') ->
      exists (req : chat_request) (answer : response)
             (img txt : option string),
        calls w' = calls w ++ [req]
        /\ endpoint (length (calls w)) req = inr answer
        /\ App.extract_image_from_response answer = inr (img, txt)
        /\ Spec.name_of (App.body resp)
           = Some (JStr match txt with
                        | Some t => PyStr.strip t
                        | None =>
                            Spec.first_chars 3
                              (default "creature 1" (data !! "parent1_name"))
                            +:+ Spec.last_chars 3
                                  (default "creature 2"
                                     (data !! "parent2_name"))
                        end)).
Proof.
  intros Hstatus. split.
  - unfold App.generate_animal, App.get_client, App.save_image. run_M.
    intros Hrun. branches.
    all: eexists _, _, _, _; split; [reflexivity|];
      split; [eassumption|]; split; [eassumption|].
    all: name_case.
  - unfold App.breed_animals, App.get_client, App.save_image. run_M.
    intros Hrun. branches.
    all: eexists _, _, _, _; split; [reflexivity|];
      split; [eassumption|]; split; [eassumption|].
    all: rewrite <- ?slice_to_first_chars, <- ?slice_last_last_chars.
    all: name_case.
Qed.

End Names.

(** The example of the specification: parents [Alphaborn] and [Zephyrix]
    and an answer without text give the name [Alprix]. *)
Lemma derived_name_fallback_witness :
  App.status Sample.offspring = 200%Z
  /\ App.breed_animals (rt := Sample.runtime (inr Sample.nameless_response))
       Sample.breed_data Sample.stocked
     = (inr Sample.offspring,
        (App.breed_animals (rt := Sample.runtime (inr Sample.nameless_response))
           Sample.breed_data Sample.stocked).2)
  /\ exists (req : chat_request) (answer : response)
            (img txt : option string),
       Sample.nameless_response = answer
       /\ App.extract_image_from_response answer = inr (img, txt)
       /\ Spec.name_of (App.body Sample.offspring)
          = Some (JStr match txt with
                       | Some t => PyStr.strip t
                       | None =>
                           Spec.first_chars 3 "Alphaborn"
                           +:+ Spec.last_chars 3 "Zephyrix"
                       end).
Proof.
  assert (Hrun :
    App.breed_animals (rt := Sample.runtime (inr Sample.nameless_response))
      Sample.breed_data Sample.stocked
    = (inr Sample.offspring,
       (App.breed_animals (rt := Sample.runtime (inr Sample.nameless_response))
          Sample.breed_data Sample.stocked).2))
    by (vm_compute; reflexivity).
  split; [reflexivity|]. split; [exact Hrun|].
  destruct (proj2 (derived_name_fallback
                     (rt := Sample.runtime (inr Sample.nameless_response))
                     Sample.breed_data Sample.stocked _ Sample.offspring
                     eq_refl) Hrun)
    as (req & answer & img & txt & _ & Hanswer & Hextract & Hname).
  exists req, answer, img, txt.
  split; [by injection Hanswer|]. split; [exact Hextract|]. exact Hname.
Defined.

Example offspring_name :
  Spec.name_of (App.body Sample.offspring) = Some (JStr "Alprix").
Proof. vm_compute. reflexivity. Qed.

Example unnamed_generation :
  Spec.name_of
    (App.body
       (default (App.HttpResponse 0 JNull)
          (match (App.generate_animal
                    (rt := Sample.runtime (inr Sample.nameless_response))
                    ∅ Sample.keyed).1 with
           | inr resp => Some resp
           | inl _ => None
           end)))
  = Some (JStr "Unknown Creature").
Proof. vm_compute. reflexivity. Qed.

(** ** The breeding request *)

Section Breeding.
Context {rt : Runtime}.

Lemma breed_prompt_contents (n1 n2 : string) :
  PyStr.contains (App.breed_prompt n1 n2)
    "Imagine and design their OFFSPRING - a completely NEW fantastical creature"
  /\ PyStr.contains (App.breed_prompt n1 n2) "Don't just blend the images"
  /\ PyStr.contains (App.breed_prompt n1 n2)
       "Also invent a creative species name for this offspring"
  /\ PyStr.contains (App.breed_prompt n1 n2)
       "Respond with ONLY the name, nothing else.".
Proof.
  unfold App.breed_prompt. repeat split.
  - eapply contains_unlines; [do 5 right; left|].
    by exists "Your task: ",
      " that could believably be born from these two parents.".
  - eapply contains_unlines; [do 14 right; left|].
    by exists "Create a detailed, imaginative image of this NEW creature. It should feel like a real fantasy species that inherited traits from both parents in surprising and creative ways. ",
      " - imagine what their CHILD would actually look like as a unique being.".
  - eapply contains_unlines; [do 16 right; left|].
    by exists EmptyString,
      " that reflects its heritage. Respond with ONLY the name, nothing else.".
  - eapply contains_unlines; [do 16 right; left|].
    by exists "Also invent a creative species name for this offspring that reflects its heritage. ",
      EmptyString.
Qed.

(** C7. Breeding request shape and parent order: with both parent files
    on disk the handler sends, when the credential lets it send at all,
    exactly one request, whose content is one text block followed by the
    image of parent 1 and then the image of parent 2 as data URIs; the
    text tells the model to design new offspring, not to blend the images,
    and to answer with only the invented species name; and a success
    response lists the parents in request order. *)
Theorem breed_request_shape (data : gmap string string) (w : world)
    (img1 img2 : string) :
  files w !! App.image_file (App.fmt (data !! "parent1_id")) = Some img1 ->
  files w !! App.image_file (App.fmt (data !! "parent2_id")) = Some img2 ->
  calls (App.breed_animals data w).2
  = calls w
    ++ (if App.truthy (environ w !! "OPENROUTER_API_KEY")
        then [Spec.breed_request w data img1 img2] else [])
  /\ (exists text : string,
        msg_content <$> req_messages (Spec.breed_request w data img1 img2)
        = [Parts [TextPart text;
                  ImageUrlPart ("data:image/png;base64," +:+ b64encode img1);
                  ImageUrlPart ("data:image/png;base64," +:+ b64encode img2)]]
        /\ PyStr.contains text
             "Imagine and design their OFFSPRING - a completely NEW fantastical creature"
        /\ PyStr.contains text "Don't just blend the images"
        /\ PyStr.contains text
             "Also invent a creative species name for this offspring"
        /\ PyStr.contains text "Respond with ONLY the name, nothing else.")
  /\ (forall resp : App.http_response,
        (App.breed_animals data w).1 = inr resp ->
        App.status resp = 200%Z ->
        Spec.field (App.body resp) "parents"
        = Some (JArr [json_of_opt (data !! "parent1_id");
                      json_of_opt (data !! "parent2_id")])).
Proof.
  intros H1 H2. split; [|split].
  - parents_on_disk H1 H2. unfold App.get_client, App.save_image. run_M.
    unfold Spec.breed_request, Spec.client_of.
    destruct (App.truthy (environ w !! "OPENROUTER_API_KEY"));
      cbn [negb]; [|by rewrite app_nil_r].
    rewrite H1, H2. branches.
  - eexists. split; [reflexivity|]. apply breed_prompt_contents.
  - intros resp. parents_on_disk H1 H2.
    unfold App.get_client, App.save_image. run_M.
    destruct (App.truthy (environ w !! "OPENROUTER_API_KEY"));
      cbn [negb]; [|done].
    rewrite H1, H2. intros Hrun Hstatus. branches.
Qed.

End Breeding.

Lemma breed_request_shape_witness :
  files Sample.stocked
  !! App.image_file (App.fmt (Sample.breed_data !! "parent1_id")) = Some "abc"
  /\ files Sample.stocked
     !! App.image_file (App.fmt (Sample.breed_data !! "parent2_id"))
     = Some "xyz"
  /\ calls (App.breed_animals
              (rt := Sample.runtime (inr Sample.named_response))
              Sample.breed_data Sample.stocked).2
     = [Spec.breed_request (rt := Sample.runtime (inr Sample.named_response))
          Sample.stocked Sample.breed_data "abc" "xyz"].
Proof.
  assert (H1 : files Sample.stocked
               !! App.image_file (App.fmt (Sample.breed_data !! "parent1_id"))
               = Some "abc") by (vm_compute; reflexivity).
  assert (H2 : files Sample.stocked
               !! App.image_file (App.fmt (Sample.breed_data !! "parent2_id"))
               = Some "xyz") by (vm_compute; reflexivity).
  split; [exact H1|]. split; [exact H2|].
  exact (proj1 (breed_request_shape
                  (rt := Sample.runtime (inr Sample.named_response))
                  Sample.breed_data Sample.stocked "abc" "xyz" H1 H2)).
Defined.

(** The tool attaches its two inputs in the same order, each under the
    MIME type of its extension, after a text of its own. *)
Example tool_breed_request :
  calls (Cli.exit_status (rt := Sample.runtime (inr Sample.named_response))
           (Cli.Args "a hybrid" "child.png" (Some "cat.jpg") (Some "dog.png")
              Cli.DEFAULT_MODEL)
           Sample.kennel).2
  = [ChatRequest (Spec.client_of Sample.kennel) Cli.DEFAULT_MODEL
       [ChatMessage "user"
          (Parts
             [TextPart
                "Generate a new image that combines or blends these two images: a hybrid";
              ImageUrlPart "data:image/jpeg;base64,YWJj";
              ImageUrlPart "data:image/png;base64,eHl6"])]].
Proof. vm_compute. reflexivity. Qed.

(** The images of the request are those of parent 1 and of parent 2, in
    that order ([YWJj] and [eHl6] encode [abc] and [xyz]). *)
Example breed_request_images :
  msg_content
    <$> req_messages
          (Spec.breed_request (rt := Sample.runtime (inr Sample.named_response))
             Sample.stocked Sample.breed_data "abc" "xyz")
  = [Parts [TextPart (App.breed_prompt "Alphaborn" "Zephyrix");
            ImageUrlPart "data:image/png;base64,YWJj";
            ImageUrlPart "data:image/png;base64,eHl6"]].
Proof. vm_compute. reflexivity. Qed.

(** ** The default prompt *)

Section Prompt.
Context {rt : Runtime}.

(** With the credential set, generation sends exactly one request. *)
Lemma generate_calls (data : gmap string string) (w : world) :
  App.truthy (environ w !! "OPENROUTER_API_KEY") = true ->
  calls (App.generate_animal data w).2
  = calls w
    ++ [Spec.generate_request w
          (default "a cute fantasy animal" (data !! "prompt"))].
Proof.
  intros Hkey. unfold App.generate_animal, App.get_client, App.save_image.
  run_M. rewrite Hkey. cbn [negb].
  unfold Spec.generate_request, Spec.client_of.
  branches.
Qed.

(** C10. Generate-prompt default: a request without the [prompt] key is
    not rejected: it is handled exactly as the same request with the
    prompt [a cute fantasy animal], and the text of the one outbound
    request asks for an image of [a cute fantasy animal]. *)
Theorem generate_prompt_default (data : gmap string string) (w : world) :
  data !! "prompt" = None ->
  App.generate_animal data w
  = App.generate_animal (<["prompt" := "a cute fantasy animal"]> data) w
  /\ (App.truthy (environ w !! "OPENROUTER_API_KEY") = true ->
      calls (App.generate_animal data w).2
      = calls w
        ++ [ChatRequest
              (OpenAI "https://openrouter.ai/api/v1"
                 (App.fmt (environ w !! "OPENROUTER_API_KEY")))
              "google/gemini-3-pro-image-preview"
              [ChatMessage "user"
                 (Text
                    ("Generate an image of: a cute fantasy animal"
                     +:+ PyStr.nl +:+ PyStr.nl
                     +:+ "Make it detailed and visually appealing."
                     +:+ PyStr.nl +:+ PyStr.nl
                     +:+ "Also give it a short creative name. Respond with ONLY the name."))]]).
Proof.
  intros Hprompt. split.
  - unfold App.generate_animal. by rewrite lookup_insert_eq, Hprompt.
  - intros Hkey. by rewrite (generate_calls _ _ Hkey), Hprompt.
Qed.

Lemma full_prompt_contents (prompt : string) :
  PyStr.contains (App.full_prompt prompt) ("Generate an image of: " +:+ prompt).
Proof.
  unfold App.full_prompt. eapply contains_unlines; [left|].
  exists EmptyString, EmptyString. by rewrite append_nil_r.
Qed.

End Prompt.

Lemma generate_prompt_default_witness :
  (∅ : gmap string string) !! "prompt" = None
  /\ App.generate_animal (rt := Sample.runtime (inr Sample.named_response))
       ∅ Sample.keyed
     = App.generate_animal (rt := Sample.runtime (inr Sample.named_response))
         {[ "prompt" := "a cute fantasy animal" ]} Sample.keyed
  /\ (req_messages
        <$> calls (App.generate_animal
                     (rt := Sample.runtime (inr Sample.named_response))
                     ∅ Sample.keyed).2)
     = [[ChatMessage "user"
           (Text
              ("Generate an image of: a cute fantasy animal"
               +:+ PyStr.nl +:+ PyStr.nl
               +:+ "Make it detailed and visually appealing."
               +:+ PyStr.nl +:+ PyStr.nl
               +:+ "Also give it a short creative name. Respond with ONLY the name."))]].
Proof.
  pose proof (generate_prompt_default
                (rt := Sample.runtime (inr Sample.named_response))
                ∅ Sample.keyed eq_refl) as [Hsame Hcalls].
  split; [reflexivity|]. split; [exact Hsame|].
  by rewrite (Hcalls eq_refl).
Defined.

(** A request without a prompt succeeds like any other. *)
Example generate_without_prompt :
  (App.generate_animal (rt := Sample.runtime (inr Sample.named_response))
     ∅ Sample.keyed).1
  = inr (App.HttpResponse 200
           (JObj {[ "id" := JStr "3f2b8c1d";
                    "name" := JStr "Name";
                    "image_url" := JStr "/static/generated/3f2b8c1d.png" ]})).
Proof. vm_compute. reflexivity. Qed.

(** ** The state file *)

Section State.
Context {rt : Runtime}.

(** C6. State round-trip: when the JSON codec reads back the document it
    wrote, saving a document and then loading returns that document; and
    loading while no state file exists returns the empty state. *)
Theorem state_round_trip (doc : json) (w fresh : world) :
  json_load (json_dump doc) = inr doc ->
  files fresh !! App.STATE_FILE = None ->
  (exists w' : world,
     App.save_state doc w
     = (inr (App.HttpResponse 200 (JObj {[ "success" := JBool true ]})), w')
     /\ files w' = <[App.STATE_FILE := json_dump doc]> (files w)
     /\ App.load_state w' = (inr (App.HttpResponse 200 doc), w'))
  /\ App.load_state fresh
     = (inr (App.HttpResponse 200 Spec.empty_state), fresh).
Proof.
  intros Hcodec Hfresh. split.
  - eexists. split; [reflexivity|]. split.
    + cbn [files with_files]. by rewrite insert_insert_eq.
    + unfold App.load_state. run_M. cbn [files with_files].
      rewrite !lookup_insert_eq.
      rewrite bool_decide_eq_true_2 by eauto.
      cbn [files with_files]. rewrite lookup_insert_eq.
      by rewrite Hcodec.
  - unfold App.load_state. run_M. rewrite Hfresh.
    by rewrite (bool_decide_eq_false_2 (is_Some None))
      by apply not_is_Some_None.
Qed.

End State.

(** The example of the specification: the document
    [{"animals":[{"id":"ab12cd34"}]}] comes back as it was saved. *)
Lemma state_round_trip_witness :
  json_load (Runtime := Sample.runtime (inr Sample.named_response))
    (json_dump (Runtime := Sample.runtime (inr Sample.named_response))
       Sample.state_doc)
  = inr Sample.state_doc
  /\ files Sample.bare !! App.STATE_FILE = None
  /\ App.load_state (rt := Sample.runtime (inr Sample.named_response))
       (App.save_state (rt := Sample.runtime (inr Sample.named_response))
          Sample.state_doc Sample.bare).2
     = (inr (App.HttpResponse 200 Sample.state_doc),
        (App.save_state (rt := Sample.runtime (inr Sample.named_response))
           Sample.state_doc Sample.bare).2).
Proof.
  assert (Hcodec :
    json_load (Runtime := Sample.runtime (inr Sample.named_response))
      (json_dump (Runtime := Sample.runtime (inr Sample.named_response))
         Sample.state_doc)
    = inr Sample.state_doc) by (vm_compute; reflexivity).
  assert (Hfresh : files Sample.bare !! App.STATE_FILE = None)
    by (vm_compute; reflexivity).
  split; [exact Hcodec|]. split; [exact Hfresh|].
  destruct (proj1 (state_round_trip
                     (rt := Sample.runtime (inr Sample.named_response))
                     Sample.state_doc Sample.bare Sample.bare Hcodec Hfresh))
    as (w' & Hsave & _ & Hload).
  rewrite Hsave. exact Hload.
Defined.

(** ** MIME types *)

Section Mime.
Context {rt : Runtime}.

(** C8. MIME inference: the type is read off the fixed table at the
    lower-cased extension, and is [image/jpeg] for every extension that
    the table does not list; the function is total. *)
Theorem mime_type_table (image_path : string) :
  Cli.get_image_mime_type image_path
  = Spec.mime_of_extension (PyStr.lower (path_suffix image_path))
  /\ (PyStr.lower (path_suffix image_path)
        ∉ [".jpg"; ".jpeg"; ".png"; ".gif"; ".webp"] ->
      Cli.get_image_mime_type image_path = "image/jpeg").
Proof.
  unfold Cli.get_image_mime_type, Cli.mime_types, Spec.mime_of_extension.
  generalize (PyStr.lower (path_suffix image_path)). intros ext.
  split.
  - repeat (rewrite lookup_insert; case_decide as Hext;
            [subst ext; reflexivity|];
            apply String.eqb_neq in Hext; rewrite String.eqb_sym, Hext;
            clear Hext).
    rewrite lookup_singleton. case_decide as Hext; [by subst ext|].
    apply String.eqb_neq in Hext. by rewrite String.eqb_sym, Hext.
  - intros Hnot.
    rewrite !lookup_insert_ne, lookup_singleton_ne; [done|..];
      intros <-; apply Hnot; set_solver.
Qed.

End Mime.

(** The rows of the table. *)
Example mime_table_rows :
  map Spec.mime_of_extension [".jpg"; ".jpeg"; ".png"; ".gif"; ".webp"]
  = ["image/jpeg"; "image/jpeg"; "image/png"; "image/gif"; "image/webp"].
Proof. reflexivity. Qed.

(** The examples of the specification: [.webp] is listed, [.bmp] is not. *)
Lemma mime_type_table_witness :
  (PyStr.lower (Sample.posix_suffix "scans/page.bmp")
     ∉ [".jpg"; ".jpeg"; ".png"; ".gif"; ".webp"])
  /\ Cli.get_image_mime_type
       (rt := Sample.runtime (inr Sample.named_response)) "scans/page.bmp"
     = "image/jpeg".
Proof.
  assert (Hext : PyStr.lower (Sample.posix_suffix "scans/page.bmp") = ".bmp")
    by (vm_compute; reflexivity).
  assert (Hnot : PyStr.lower (Sample.posix_suffix "scans/page.bmp")
                   ∉ [".jpg"; ".jpeg"; ".png"; ".gif"; ".webp"]).
  { rewrite Hext, !not_elem_of_cons. repeat split; try done.
    apply not_elem_of_nil. }
  split; [exact Hnot|].
  exact (proj2 (mime_type_table
                  (rt := Sample.runtime (inr Sample.named_response))
                  "scans/page.bmp") Hnot).
Defined.

Example mime_examples :
  map (Cli.get_image_mime_type
         (rt := Sample.runtime (inr Sample.named_response)))
    ["photo.webp"; "photo.bmp"; "PHOTO.PNG"; "a/b/c.jpeg"; "anim.gif";
     "noextension"; ".hidden"]
  = ["image/webp"; "image/jpeg"; "image/png"; "image/jpeg"; "image/gif";
     "image/jpeg"; "image/jpeg"].
Proof. vm_compute. reflexivity. Qed.

(** * Further properties

    ** The random-prompt handler *)

Section RandomPrompt.
Context {rt : Runtime}.

(** X1. With the credential set and an answer whose first message has
    text, the random-prompt handler answers 200 with that text stripped,
    having sent exactly one request, text only, to the text model, and
    having changed nothing else. *)
Theorem random_prompt_returns_stripped_text (w : world) (answer : response)
    (m : message) (rest : list choice) (text : string) :
  Shape.credential w ->
  endpoint (length (calls w)) (Shape.random_request w) = inr answer ->
  choices answer = Some (Choice (Some m) :: rest) ->
  msg_text m = Some text ->
  App.random_prompt w
  = (inr (App.HttpResponse 200 (JObj {[ "prompt" := JStr (PyStr.strip text) ]})),
     Shape.sent (Shape.random_request w) w)
  /\ req_model (Shape.random_request w) = App.TEXT_MODEL
  /\ msg_content <$> req_messages (Shape.random_request w)
     = [Text App.random_prompt_text].
Proof.
  intros Hkey Hanswer Hchoices Htext. split; [|done].
  unfold App.random_prompt, App.get_client. run_M.
  unfold Shape.credential in Hkey. rewrite Hkey. cbn [negb].
  unfold Shape.random_request, Spec.client_of in Hanswer. rewrite Hanswer.
  unfold App.first_content_stripped. rewrite Hchoices. cbn. by rewrite Htext.
Qed.

(** X2. With the credential set, a failure of the call and an answer
    without a usable text are both answered with status 500 and the
    message of the error; the request was sent and nothing else changed. *)
Theorem random_prompt_reports_failure (w : world) :
  Shape.credential w ->
  (forall cls msg : string,
     endpoint (length (calls w)) (Shape.random_request w)
     = inl (Exception cls msg) ->
     App.random_prompt w
     = (inr (Shape.error_response msg), Shape.sent (Shape.random_request w) w))
  /\ (forall answer : response,
        endpoint (length (calls w)) (Shape.random_request w) = inr answer ->
        choices answer = Some [] ->
        App.random_prompt w
        = (inr (Shape.error_response "list index out of range"),
           Shape.sent (Shape.random_request w) w))
  /\ (forall (answer : response) (m : message) (rest : list choice),
        endpoint (length (calls w)) (Shape.random_request w) = inr answer ->
        choices answer = Some (Choice (Some m) :: rest) ->
        msg_text m = None ->
        App.random_prompt w
        = (inr (Shape.error_response
                  "'NoneType' object has no attribute 'strip'"),
           Shape.sent (Shape.random_request w) w)).
Proof.
  intros Hkey. unfold Shape.credential in Hkey.
  repeat split.
  - intros cls msg Hfail.
    unfold App.random_prompt, App.get_client. run_M.
    rewrite Hkey. cbn [negb].
    unfold Shape.random_request, Spec.client_of in Hfail. by rewrite Hfail.
  - intros answer Hanswer Hchoices.
    unfold App.random_prompt, App.get_client. run_M.
    rewrite Hkey. cbn [negb].
    unfold Shape.random_request, Spec.client_of in Hanswer. rewrite Hanswer.
    unfold App.first_content_stripped. by rewrite Hchoices.
  - intros answer m rest Hanswer Hchoices Htext.
    unfold App.random_prompt, App.get_client. run_M.
    rewrite Hkey. cbn [negb].
    unfold Shape.random_request, Spec.client_of in Hanswer. rewrite Hanswer.
    unfold App.first_content_stripped. rewrite Hchoices. cbn. by rewrite Htext.
Qed.

End RandomPrompt.

Lemma random_prompt_returns_stripped_text_witness :
  Shape.credential Sample.keyed
  /\ App.random_prompt (rt := Sample.runtime (inr Cases.text_response))
       Sample.keyed
     = (inr (App.HttpResponse 200
               (JObj {[ "prompt" := JStr "a crystal deer with galaxies" ]})),
        Shape.sent (Shape.random_request Sample.keyed) Sample.keyed).
Proof.
  assert (Hkey : Shape.credential Sample.keyed) by reflexivity.
  split; [exact Hkey|].
  exact (proj1 (random_prompt_returns_stripped_text
                  (rt := Sample.runtime (inr Cases.text_response))
                  Sample.keyed Cases.text_response _ [] _
                  Hkey eq_refl eq_refl eq_refl)).
Defined.

Lemma random_prompt_reports_failure_witness :
  Shape.credential Sample.keyed
  /\ App.random_prompt (rt := Sample.runtime (inl Cases.quota)) Sample.keyed
     = (inr (Shape.error_response "quota exceeded"),
        Shape.sent (Shape.random_request Sample.keyed) Sample.keyed)
  /\ App.random_prompt (rt := Sample.runtime (inr Cases.empty_response))
       Sample.keyed
     = (inr (Shape.error_response "list index out of range"),
        Shape.sent (Shape.random_request Sample.keyed) Sample.keyed).
Proof.
  assert (Hkey : Shape.credential Sample.keyed) by reflexivity.
  split; [exact Hkey|]. split.
  - exact (proj1 (random_prompt_reports_failure
                    (rt := Sample.runtime (inl Cases.quota))
                    Sample.keyed Hkey) _ _ eq_refl).
  - exact (proj1 (proj2 (random_prompt_reports_failure
                    (rt := Sample.runtime (inr Cases.empty_response))
                    Sample.keyed Hkey)) _ eq_refl eq_refl).
Defined.

(** ** Generating and breeding *)

Section Generate.
Context {rt : Runtime}.

(** X3. A generation whose answer carries a decodable image answers 200
    with the new identifier, the derived name and the URL of the image,
    and the file of that identifier holds the decoded bytes as soon as the
    handler returns; nothing else was written and one request was sent. *)
Theorem generate_persists_image (data : gmap string string) (w : world)
    (answer : response) (payload decoded : string) (txt : option string) :
  Shape.credential w ->
  endpoint (length (calls w))
    (Spec.generate_request w
       (default "a cute fantasy animal" (data !! "prompt")))
  = inr answer ->
  App.extract_image_from_response answer = inr (Some payload, txt) ->
  PyStr.truthy payload = true ->
  b64decode payload = inr decoded ->
  exists w' : world,
    App.generate_animal data w
    = (inr (App.HttpResponse 200
              (JObj {[ "id" := JStr (Shape.minted_id w);
                       "name" :=
                         JStr (Shape.derived_name txt "Unknown Creature");
                       "image_url" :=
                         JStr ("/static/generated/" +:+ Shape.minted_id w
                               +:+ ".png") ]})),
       w')
    /\ files w' = <[App.image_file (Shape.minted_id w) := decoded]> (files w)
    /\ files w' !! App.image_file (Shape.minted_id w) = Some decoded
    /\ calls w'
       = calls w
         ++ [Spec.generate_request w
               (default "a cute fantasy animal" (data !! "prompt"))]
    /\ uuids w' = S (uuids w).
Proof.
  intros Hkey Hanswer Hextract Hpayload Hdecode.
  unfold Shape.credential in Hkey.
  unfold App.generate_animal, App.get_client. run_M.
  rewrite Hkey. cbn [negb].
  unfold Spec.generate_request, Spec.client_of in Hanswer. rewrite Hanswer.
  rewrite Hextract. cbn [App.truthy App.fmt]. rewrite Hpayload. cbn [negb].
  rewrite save_image_run. cbn zeta. rewrite Hdecode.
  eexists. split; [reflexivity|]. cbn [files with_files calls with_calls uuids with_uuids].
  repeat split. by rewrite lookup_insert_eq.
Qed.

(** X5. A generation that fails before the image is saved answers 500
    with the message of the failure and leaves the world as it was but for
    the request it sent: no file is written and no identifier is drawn,
    whether the call failed, the extraction failed, or the answer has no
    image. *)
Theorem generate_failure_leaves_world (data : gmap string string) (w : world) :
  Shape.credential w ->
  let req := Spec.generate_request w
               (default "a cute fantasy animal" (data !! "prompt")) in
  (forall cls msg : string,
     endpoint (length (calls w)) req = inl (Exception cls msg) ->
     App.generate_animal data w
     = (inr (Shape.error_response msg), Shape.sent req w))
  /\ (forall (answer : response) (cls msg : string),
        endpoint (length (calls w)) req = inr answer ->
        App.extract_image_from_response answer = inl (Exception cls msg) ->
        App.generate_animal data w
        = (inr (Shape.error_response msg), Shape.sent req w))
  /\ (forall (answer : response) (img txt : option string),
        endpoint (length (calls w)) req = inr answer ->
        App.extract_image_from_response answer = inr (img, txt) ->
        App.truthy img = false ->
        App.generate_animal data w
        = (inr (Shape.error_response "No image generated"),
           Shape.sent req w)).
Proof.
  intros Hkey req. unfold Shape.credential in Hkey. subst req.
  unfold Spec.generate_request, Spec.client_of.
  repeat split.
  - intros cls msg Hfail.
    unfold App.generate_animal, App.get_client. run_M.
    rewrite Hkey. cbn [negb]. by rewrite Hfail.
  - intros answer cls msg Hanswer Hextract.
    unfold App.generate_animal, App.get_client. run_M.
    rewrite Hkey. cbn [negb]. by rewrite Hanswer, Hextract.
  - intros answer img txt Hanswer Hextract Himg.
    unfold App.generate_animal, App.get_client. run_M.
    rewrite Hkey. cbn [negb]. by rewrite Hanswer, Hextract, Himg.
Qed.

(** X19. A breeding whose request has string fields, whose parents are on
    disk and whose answer carries a decodable image answers 200 with the
    new identifier, the derived name, the URL and the two parents, and
    stores the decoded bytes under the new identifier. *)
Theorem breed_persists_image (data : gmap string string) (w : world)
    (img1 img2 : string) (answer : response) (payload decoded : string)
    (txt : option string) :
  Shape.credential w ->
  files w !! App.image_file (App.fmt (data !! "parent1_id")) = Some img1 ->
  files w !! App.image_file (App.fmt (data !! "parent2_id")) = Some img2 ->
  endpoint (length (calls w)) (Spec.breed_request w data img1 img2)
  = inr answer ->
  App.extract_image_from_response answer = inr (Some payload, txt) ->
  PyStr.truthy payload = true ->
  b64decode payload = inr decoded ->
  exists w' : world,
    App.breed_animals data w
    = (inr (App.HttpResponse 200
              (JObj {[ "id" := JStr (Shape.minted_id w);
                       "name" :=
                         JStr (Shape.derived_name txt
                                 (PyStr.slice_to 3
                                    (default "creature 1"
                                       (data !! "parent1_name"))
                                  +:+ PyStr.slice_last 3
                                        (default "creature 2"
                                           (data !! "parent2_name"))));
                       "image_url" :=
                         JStr ("/static/generated/" +:+ Shape.minted_id w
                               +:+ ".png");
                       "parents" :=
                         JArr [json_of_opt (data !! "parent1_id");
                               json_of_opt (data !! "parent2_id")] ]})),
       w')
    /\ files w' = <[App.image_file (Shape.minted_id w) := decoded]> (files w)
    /\ calls w' = calls w ++ [Spec.breed_request w data img1 img2].
Proof.
  intros Hkey H1 H2 Hanswer Hextract Hpayload Hdecode.
  unfold Shape.credential in Hkey.
  parents_on_disk H1 H2. unfold App.get_client. run_M.
  rewrite Hkey. cbn [negb]. rewrite H1, H2.
  unfold Spec.breed_request, Spec.client_of in Hanswer. rewrite Hanswer.
  rewrite Hextract. cbn [App.truthy App.fmt]. rewrite Hpayload. cbn [negb].
  rewrite save_image_run. cbn zeta. rewrite Hdecode.
  eexists. split; [reflexivity|]. done.
Qed.

(** X6. Whatever happens, a generation or a breeding changes at most one
    file, the one of the identifier it mints: every other path holds what
    it held before. *)
Theorem handlers_write_only_minted_file (data : gmap string string)
    (w : world) (p : string) :
  p <> App.image_file (Shape.minted_id w) ->
  files (App.generate_animal data w).2 !! p = files w !! p
  /\ files (App.breed_animals data w).2 !! p = files w !! p.
Proof.
  intros Hp. unfold Shape.minted_id in Hp. split.
  - unfold App.generate_animal, App.get_client, App.save_image. run_M.
    branches; by rewrite ?lookup_insert_ne.
  - unfold App.breed_animals, App.get_client, App.save_image. run_M.
    branches; by rewrite ?lookup_insert_ne.
Qed.

(** X7. Once the credential is set no exception leaves the random-prompt
    handler or a generation, nor a breeding whose two parent files are on
    disk: every failure inside them is answered as a response. Loading the
    state needs no credential for that. *)
Theorem handlers_catch_exceptions (w : world) (cls msg : string) :
  (Shape.credential w ->
   (App.random_prompt w).1 <> inl (Exception cls msg)
   /\ (forall data : gmap string string,
         (App.generate_animal data w).1 <> inl (Exception cls msg))
   /\ (forall (data : gmap string string) (img1 img2 : string),
         files w !! App.image_file (App.fmt (data !! "parent1_id"))
         = Some img1 ->
         files w !! App.image_file (App.fmt (data !! "parent2_id"))
         = Some img2 ->
         (App.breed_animals data w).1 <> inl (Exception cls msg)))
  /\ (App.load_state w).1 <> inl (Exception cls msg).
Proof.
  split; [intros Hkey; unfold Shape.credential in Hkey; repeat split|].
  - unfold App.random_prompt, App.get_client. run_M.
    rewrite Hkey. cbn [negb]. branches.
  - intros data. unfold App.generate_animal, App.get_client, App.save_image.
    run_M. rewrite Hkey. cbn [negb]. branches.
  - intros data img1 img2 H1 H2. parents_on_disk H1 H2.
    unfold App.get_client, App.save_image. run_M.
    rewrite Hkey. cbn [negb]. rewrite H1, H2. branches.
  - unfold App.load_state. run_M. branches.
Qed.

(** X4. The identifier that a successful generation returns resolves at
    once: its file is on disk, so a breeding that names it as both parents
    is not turned away as not found. *)
Theorem generated_id_resolves (data : gmap string string) (w w' : world)
    (resp : App.http_response) (id : string) :
  App.generate_animal data w = (inr resp, w') ->
  App.status resp = 200%Z ->
  Spec.field (App.body resp) "id" = Some (JStr id) ->
  is_Some (files w' !! App.image_file id)
  /\ forall breed_data : gmap string string,
       breed_data !! "parent1_id" = Some id ->
       breed_data !! "parent2_id" = Some id ->
       (App.breed_animals breed_data w').1 <> inr Shape.not_found_response.
Proof.
  intros Hrun Hstatus Hid.
  assert (Hfile : is_Some (files w' !! App.image_file id)).
  { revert Hrun Hstatus Hid.
    unfold App.generate_animal, App.get_client, App.save_image. run_M.
    intros Hrun Hstatus Hid. branches.
    all: rewrite lookup_insert_eq in Hid; injection Hid as <-.
    all: rewrite lookup_insert_eq; eauto. }
  split; [exact Hfile|].
  intros breed_data Hp1 Hp2. destruct Hfile as [img Himg].
  assert (H1 : files w' !! App.image_file (App.fmt (breed_data !! "parent1_id"))
               = Some img) by (by rewrite Hp1).
  assert (H2 : files w' !! App.image_file (App.fmt (breed_data !! "parent2_id"))
               = Some img) by (by rewrite Hp2).
  parents_on_disk H1 H2. unfold App.get_client, App.save_image. run_M.
  unfold Shape.not_found_response. branches.
Qed.

(** X10. A breed request that leaves out the names of the parents is
    handled exactly as the same request with the names [creature 1] and
    [creature 2]. *)
Theorem breed_names_default (data : gmap string string) (w : world) :
  data !! "parent1_name" = None ->
  data !! "parent2_name" = None ->
  App.breed_animals data w
  = App.breed_animals
      (<["parent1_name" := "creature 1"]>
         (<["parent2_name" := "creature 2"]> data)) w.
Proof.
  intros Hn1 Hn2. unfold App.breed_animals.
  rewrite !(lookup_insert_ne _ _ "parent1_id") by done.
  rewrite !(lookup_insert_ne _ _ "parent2_id") by done.
  rewrite (lookup_insert_ne _ "parent1_name" "parent2_name") by done.
  by rewrite !lookup_insert_eq, Hn1, Hn2.
Qed.

End Generate.

(** ** The tool, turn by turn *)

Section ToolLoop.
Context {rt : Runtime}.

(** One turn of the loop of the tool, whatever the item is. *)
Lemma save_first_cons (it : json) (rest : list json) (out : string)
    (w : world) :
  (exists cls msg : string,
     Cli.save_first_image (it :: rest) out w = (inl (Exception cls msg), w))
  \/ Cli.save_first_image (it :: rest) out w
     = Cli.save_first_image rest out w
  \/ exists u : string,
       Spec.data_image_url it = Some u
       /\ Cli.save_first_image (it :: rest) out w = Spec.tool_saves u out w.
Proof.
  destruct (Spec.data_image_url it) as [u|] eqn:Hit.
  { right. right. exists u. split; [done|]. by apply save_first_data_image. }
  destruct (Spec.other_item it) eqn:Hother.
  { right. left. by apply save_first_other. }
  left. revert Hit Hother.
  unfold Spec.data_image_url, Spec.other_item, Spec.field.
  cbn [Cli.save_first_image]. unfold App.image_url_of. run_M.
  unfold getitem, startswith, eq_str, PyStr.startswith.
  unfold KeyError, AttributeError.
  cbv [mbind res_bind mret res_ret rraise option_bind].
  intros Hit Hother.
  repeat (case_match; simplify_eq/=; eauto).
Qed.

(** The loop of the tool sends nothing. *)
Lemma save_first_calls (imgs : list json) (out : string) (w : world) :
  calls (Cli.save_first_image imgs out w).2 = calls w.
Proof.
  induction imgs as [|it rest IH]; [done|].
  destruct (save_first_cons it rest out w) as [(cls & msg & ->) | [-> | (u & _ & ->)]];
    [done|done|].
  unfold Spec.tool_saves.
  destruct (PyStr.partition "," u) as [[head payload]|]; [|done].
  destruct (b64decode payload); by destruct (PyStr.truthy (Cli.dirname out)).
Qed.

(** When the loop reports success it has decoded a payload and written
    it to the output, after making the directory of the output. *)
Lemma save_first_true (imgs : list json) (out : string) (w w' : world) :
  Cli.save_first_image imgs out w = (inr true, w') ->
  exists payload decoded : string,
    b64decode payload = inr decoded
    /\ w' = Spec.printed ["SUCCESS: Image saved to " +:+ out]
              (Shape.output_written out decoded w).
Proof.
  induction imgs as [|it rest IH]; [done|].
  destruct (save_first_cons it rest out w) as [(cls & msg & ->) | [-> | (u & _ & ->)]];
    [done|done|].
  unfold Spec.tool_saves.
  destruct (PyStr.partition "," u) as [[head payload]|]; [|done].
  destruct (b64decode payload) as [e|decoded] eqn:Hdecode; [done|].
  intros [= <-]. by exists payload, decoded.
Qed.

(** When the loop reports that it found nothing, it has only said so. *)
Lemma save_first_false (imgs : list json) (out : string) (w w' : world) :
  Cli.save_first_image imgs out w = (inr false, w') ->
  w' = Spec.printed ["ERROR: No images found in response"] w.
Proof.
  induction imgs as [|it rest IH]; [by intros [= <-]|].
  destruct (save_first_cons it rest out w) as [(cls & msg & ->) | [-> | (u & _ & ->)]];
    [done|done|].
  unfold Spec.tool_saves.
  destruct (PyStr.partition "," u) as [[head payload]|]; [|done].
  by destruct (b64decode payload).
Qed.

(** The same for the whole of [extract_and_save_image]. *)
Lemma extract_and_save_calls (r : response) (out : string) (w : world) :
  calls (Cli.extract_and_save_image r out w).2 = calls w.
Proof.
  unfold Cli.extract_and_save_image. run_M.
  destruct (choices r) as [[|first ?]|]; try done.
  destruct (choice_message first) as [m|]; [|done].
  destruct (App.truthy (msg_text m));
    (destruct (images m) as [[|it imgs]|]; [done| |done]);
    by rewrite save_first_calls.
Qed.

Lemma extract_and_save_true (r : response) (out : string) (w w' : world) :
  Cli.extract_and_save_image r out w = (inr true, w') ->
  exists (payload decoded : string) (w0 : world),
    b64decode payload = inr decoded
    /\ files w0 = files w /\ dirs w0 = dirs w /\ calls w0 = calls w
    /\ w' = Spec.printed ["SUCCESS: Image saved to " +:+ out]
              (Shape.output_written out decoded w0).
Proof.
  unfold Cli.extract_and_save_image. run_M.
  destruct (choices r) as [[|first ?]|]; try done.
  destruct (choice_message first) as [m|]; [|done].
  destruct (App.truthy (msg_text m));
    (destruct (images m) as [[|it imgs]|]; [done| |done]);
    intros (payload & decoded & Hdecode & ->)%save_first_true;
    refine (ex_intro _ payload (ex_intro _ decoded (ex_intro _ _
              (conj Hdecode (conj _ (conj _ (conj _ eq_refl)))))));
    done.
Qed.

(** The loop itself raises only exceptions: an exit can only come from
    the decoder. *)
Lemma save_first_exit (imgs : list json) (out : string) (w w' : world)
    (code : Z) :
  Cli.save_first_image imgs out w = (inl (SystemExit code), w') ->
  exists payload : string, b64decode payload = inl (SystemExit code).
Proof.
  induction imgs as [|it rest IH]; [done|].
  destruct (save_first_cons it rest out w)
    as [(cls & msg & ->) | [-> | (u & _ & ->)]]; [done|done|].
  unfold Spec.tool_saves.
  destruct (PyStr.partition "," u) as [[head payload]|]; [|done].
  destruct (b64decode payload) as [e|decoded] eqn:Hdecode; [|done].
  intros [= -> _]. by exists payload.
Qed.

Lemma extract_and_save_exit (r : response) (out : string) (w w' : world)
    (code : Z) :
  Cli.extract_and_save_image r out w = (inl (SystemExit code), w') ->
  exists payload : string, b64decode payload = inl (SystemExit code).
Proof.
  unfold Cli.extract_and_save_image. run_M.
  destruct (choices r) as [[|first ?]|]; try done.
  destruct (choice_message first) as [m|]; [|done].
  destruct (App.truthy (msg_text m));
    (destruct (images m) as [[|it imgs]|]; [done| |done]);
    apply save_first_exit.
Qed.

End ToolLoop.

(** ** The tool as a whole *)

Section ToolMain.
Context {rt : Runtime}.

Lemma output_written_files (out data : string) (w : world) :
  files (Shape.output_written out data w) = <[out := data]> (files w).
Proof. unfold Shape.output_written. by destruct (PyStr.truthy _). Qed.

Lemma output_written_calls (out data : string) (w : world) :
  calls (Shape.output_written out data w) = calls w.
Proof. unfold Shape.output_written. by destruct (PyStr.truthy _). Qed.

(** X13. Once its arguments are parsed, the tool never reports success it
    did not earn: when the libraries raise nothing but exceptions and the
    exit status is 0, a payload was decoded and the output file holds the
    decoded bytes, exactly one request was sent, and the last line printed
    announces the saved image. *)
Theorem tool_success_means_saved (a : Cli.args) (w w' : world) :
  Shape.libraries_raise_exceptions ->
  Cli.exit_status a w = (0%Z, w') ->
  exists (payload decoded : string) (req : chat_request),
    b64decode payload = inr decoded
    /\ files w' !! Cli.arg_output a = Some decoded
    /\ calls w' = calls w ++ [req]
    /\ last (stdout w')
       = Some ("SUCCESS: Image saved to " +:+ Cli.arg_output a).
Proof.
  intros [Hendpoint Hdecoder].
  unfold Cli.exit_status, Cli.main.
  unfold Cli.generate_from_two_images, Cli.generate_from_image,
    Cli.generate_from_text, Cli.get_client.
  run_M. intros Hrun.
  repeat (case_match; simplify_eq/=; try done).
  all: try (exfalso; eapply Hendpoint; eassumption).
  all: try match goal with
       | H : Cli.extract_and_save_image _ _ _ = (inl (SystemExit _), _) |- _ =>
           apply extract_and_save_exit in H as (payload & Hexit);
           exfalso; eapply Hdecoder; eassumption
       end.
  all: match goal with
       | H : Cli.extract_and_save_image _ _ _ = (inr true, _) |- _ =>
           apply extract_and_save_true in H
             as (payload & decoded & w1 & Hdecode & Hf & Hd & Hc & ->)
       end.
  all: exists payload, decoded; eexists; split; [exact Hdecode|].
  all: unfold Spec.printed; cbn [files calls stdout with_stdout].
  all: rewrite output_written_files, output_written_calls, lookup_insert_eq,
         Hc, last_snoc.
  all: split; [done|]; split; [reflexivity|done].
Qed.

(** X11. [--input2] without [--input] is refused before anything else:
    one line is printed and the exit status is 1, with or without the
    credential, and no request is sent. *)
Theorem tool_refuses_input2_alone (a : Cli.args) (w : world) :
  App.truthy (Cli.arg_input a) = false ->
  App.truthy (Cli.arg_input2 a) = true ->
  Cli.exit_status a w
  = (1%Z,
     Spec.printed ["ERROR: --input2 requires --input to also be specified"] w).
Proof.
  intros Hin Hin2. unfold Cli.exit_status, Cli.main. run_M.
  by rewrite Hin, Hin2.
Qed.


(** X15. What the tool sends, by mode: the prompt as plain text; or a
    text block and the input image; or a text block and the two input
    images, first then second. Each image is a data URI under the MIME
    type of its own extension. Exactly one request is sent, whatever the
    answer turns out to be. *)
Theorem tool_request_shapes (a : Cli.args) (w : world) :
  Shape.credential w ->
  (App.truthy (Cli.arg_input a) = false ->
   App.truthy (Cli.arg_input2 a) = false ->
   calls (Cli.exit_status a w).2
   = calls w ++ [Shape.text_request w (Cli.arg_model a) (Cli.arg_prompt a)])
  /\ (forall input_image data : string,
        Cli.arg_input a = Some input_image ->
        PyStr.truthy input_image = true ->
        App.truthy (Cli.arg_input2 a) = false ->
        files w !! input_image = Some data ->
        calls (Cli.exit_status a w).2
        = calls w
          ++ [Shape.image_request w (Cli.arg_model a) (Cli.arg_prompt a)
                input_image data])
  /\ (forall image1 image2 data1 data2 : string,
        Cli.arg_input a = Some image1 -> PyStr.truthy image1 = true ->
        Cli.arg_input2 a = Some image2 -> PyStr.truthy image2 = true ->
        files w !! image1 = Some data1 ->
        files w !! image2 = Some data2 ->
        calls (Cli.exit_status a w).2
        = calls w
          ++ [Shape.two_image_request w (Cli.arg_model a) (Cli.arg_prompt a)
                image1 image2 data1 data2]).
Proof.
  intros Hkey. unfold Shape.credential in Hkey. repeat split.
  - intros Hin Hin2.
    unfold Cli.exit_status, Cli.main, Cli.generate_from_text, Cli.get_client.
    run_M. rewrite Hin, Hin2. cbn [andb]. rewrite Hkey. cbn [negb].
    unfold Shape.text_request, Spec.client_of.
    destruct (endpoint _ _) as [[? ?|?]|r]; [done..|].
    match goal with
    | |- context [Cli.extract_and_save_image ?r ?o ?w0] =>
        pose proof (extract_and_save_calls r o w0) as Hcalls;
        destruct (Cli.extract_and_save_image r o w0) as [[[? ?|?]|[|]] w1]
    end; exact Hcalls.
  - intros input_image data Hin Htruthy Hin2 Hfile.
    unfold Cli.exit_status, Cli.main, Cli.generate_from_image, Cli.get_client.
    run_M. rewrite Hin, Hin2. cbn [App.truthy App.fmt]. rewrite Htruthy.
    cbn [andb]. rewrite Hkey. cbn [negb]. rewrite Hfile.
    rewrite bool_decide_eq_true_2 by eauto. cbn [negb].
    cbn [files with_stdout]. rewrite Hfile.
    unfold Shape.image_request, Spec.client_of.
    destruct (endpoint _ _) as [[? ?|?]|r]; [done..|].
    match goal with
    | |- context [Cli.extract_and_save_image ?r ?o ?w0] =>
        pose proof (extract_and_save_calls r o w0) as Hcalls;
        destruct (Cli.extract_and_save_image r o w0) as [[[? ?|?]|[|]] w1]
    end; exact Hcalls.
  - intros image1 image2 data1 data2 Hin Ht1 Hin2 Ht2 Hf1 Hf2.
    unfold Cli.exit_status, Cli.main, Cli.generate_from_two_images,
      Cli.get_client.
    run_M. rewrite Hin, Hin2. cbn [App.truthy App.fmt]. rewrite Ht1, Ht2.
    cbn [andb]. rewrite Hkey. cbn [negb]. rewrite Hf1.
    rewrite bool_decide_eq_true_2 by eauto. cbn [negb]. rewrite Hf2.
    rewrite bool_decide_eq_true_2 by eauto. cbn [negb].
    cbn [files with_stdout]. rewrite Hf1. cbn [files with_stdout].
    rewrite Hf2.
    unfold Shape.two_image_request, Spec.client_of.
    destruct (endpoint _ _) as [[? ?|?]|r]; [done..|].
    match goal with
    | |- context [Cli.extract_and_save_image ?r ?o ?w0] =>
        pose proof (extract_and_save_calls r o w0) as Hcalls;
        destruct (Cli.extract_and_save_image r o w0) as [[[? ?|?]|[|]] w1]
    end; exact Hcalls.
Qed.

End ToolMain.

(** ** The tool and the answer it gets *)

Section ToolAnswers.
Context {rt : Runtime}.

(** X16. The first match ends the scan: what follows the first data
    image in the media list is never looked at, by the web extractor or by
    the tool, so the result is the one of that item alone. *)
Theorem first_match_ends_scan (pre post : list json) (it : json)
    (u : string) :
  Forall (fun x => Spec.other_item x = true) pre ->
  Spec.data_image_url it = Some u ->
  App.scan_images (pre ++ it :: post) = App.scan_images [it]
  /\ forall (out : string) (w : world),
       Cli.save_first_image (pre ++ it :: post) out w
       = Cli.save_first_image [it] out w.
Proof.
  intros Hpre Hit. split.
  - induction Hpre as [|x pre Hx Hpre IH]; cbn [app].
    + by rewrite !(scan_data_image _ _ _ Hit).
    + by rewrite (scan_other _ _ Hx).
  - intros out w. induction Hpre as [|x pre Hx Hpre IH]; cbn [app].
    + by rewrite !(save_first_data_image _ _ _ _ _ Hit).
    + by rewrite (save_first_other _ _ _ _ Hx).
Qed.

(** X17. A data URI that ends at its comma carries an empty payload.
    When it is the first data image of a media list that can be scanned,
    the web extractor returns the empty string as the image, and a
    generation takes it for no image: it answers 500 and writes nothing.
    The tool does not: it never answers that no images were found. *)
Theorem empty_payload_is_no_image (r : response) (m : message)
    (head : string) :
  Spec.first_message r = Some m ->
  Spec.scannable (Spec.media m) ->
  Spec.first_data_image (Spec.media m) = Some (head +:+ ",") ->
  Spec.occurs "," head = false ->
  App.extract_image_from_response r = inr (Some EmptyString, Spec.free_text m)
  /\ (forall (data : gmap string string) (w : world),
        Shape.credential w ->
        endpoint (length (calls w))
          (Spec.generate_request w
             (default "a cute fantasy animal" (data !! "prompt"))) = inr r ->
        App.generate_animal data w
        = (inr (Shape.error_response "No image generated"),
           Shape.sent
             (Spec.generate_request w
                (default "a cute fantasy animal" (data !! "prompt"))) w))
  /\ (forall (out : string) (w : world),
        (Cli.extract_and_save_image r out w).1 <> inr false).
Proof.
  intros Hm Hscan Hfirst Hhead.
  assert (Hextract : App.extract_image_from_response r
                     = inr (Some EmptyString, Spec.free_text m)).
  { rewrite extract_unfold, Hm, (scan_scannable _ Hscan), Hfirst.
    by rewrite (partition_cut _ _ _ Hhead). }
  split; [exact Hextract|]. split.
  - intros data w Hkey Hanswer. unfold Shape.credential in Hkey.
    unfold App.generate_animal, App.get_client. run_M.
    rewrite Hkey. cbn [negb].
    unfold Spec.generate_request, Spec.client_of in Hanswer.
    by rewrite Hanswer, Hextract.
  - intros out w.
    rewrite (extract_and_save_unfold _ _ _ _ Hm Hscan). cbn zeta.
    rewrite Hfirst. unfold Spec.tool_saves.
    rewrite (partition_cut _ _ _ Hhead).
    by destruct (b64decode EmptyString).
Qed.

(** X18. The tool from a prompt alone, when the answer has no image for
    it: without a candidate message it says that no response was
    received; with a message whose media list can be scanned and holds no
    data image, that no images were found; either way it exits with status
    1 and creates no file and no directory. *)
Theorem tool_without_image (a : Cli.args) (w : world) (r : response) :
  Shape.credential w ->
  App.truthy (Cli.arg_input a) = false ->
  App.truthy (Cli.arg_input2 a) = false ->
  endpoint (length (calls w))
    (Shape.text_request w (Cli.arg_model a) (Cli.arg_prompt a)) = inr r ->
  (Spec.first_message r = None ->
   exists w' : world,
     Cli.exit_status a w = (1%Z, w')
     /\ files w' = files w /\ dirs w' = dirs w
     /\ last (stdout w') = Some "ERROR: No response received from API")
  /\ (forall m : message,
        Spec.first_message r = Some m ->
        Spec.scannable (Spec.media m) ->
        Spec.first_data_image (Spec.media m) = None ->
        exists w' : world,
          Cli.exit_status a w = (1%Z, w')
          /\ files w' = files w /\ dirs w' = dirs w
          /\ last (stdout w') = Some "ERROR: No images found in response").
Proof.
  intros Hkey Hin Hin2 Hanswer. unfold Shape.credential in Hkey.
  unfold Shape.text_request, Spec.client_of in Hanswer.
  split.
  - intros Hnone.
    unfold Cli.exit_status, Cli.main, Cli.generate_from_text, Cli.get_client.
    run_M. rewrite Hin, Hin2. cbn [andb]. rewrite Hkey. cbn [negb].
    cbn [calls with_stdout]. rewrite Hanswer.
    unfold Cli.extract_and_save_image, Spec.first_message in *. run_M.
    destruct (choices r) as [[|first ?]|];
      [| rewrite Hnone |]; (eexists; split; [reflexivity|]);
      cbn [files dirs stdout with_stdout with_files with_dirs with_calls];
      by rewrite last_snoc.
  - intros m Hm Hscan Hfirst.
    unfold Cli.exit_status, Cli.main, Cli.generate_from_text, Cli.get_client.
    run_M. rewrite Hin, Hin2. cbn [andb]. rewrite Hkey. cbn [negb].
    cbn [calls with_stdout]. rewrite Hanswer.
    rewrite (extract_and_save_unfold _ _ _ _ Hm Hscan). cbn zeta.
    rewrite Hfirst. unfold Cli.no_images. run_M.
    eexists. split; [reflexivity|].
    unfold Spec.printed.
    destruct (Spec.free_text m);
      cbn [files dirs stdout with_stdout with_files with_dirs with_calls];
      by rewrite last_snoc.
Qed.

End ToolAnswers.

(** ** More on the state file *)

Section StateFile.
Context {rt : Runtime}.

(** X8. Saving overwrites the whole state: after two saves the state
    file holds the second document alone, loading returns it, and no other
    file has changed. *)
Theorem save_state_overwrites (doc1 doc2 : json) (w : world) :
  json_load (json_dump doc2) = inr doc2 ->
  let w2 := (App.save_state doc2 (App.save_state doc1 w).2).2 in
  files w2 = <[App.STATE_FILE := json_dump doc2]> (files w)
  /\ App.load_state w2 = (inr (App.HttpResponse 200 doc2), w2)
  /\ forall p : string, p <> App.STATE_FILE -> files w2 !! p = files w !! p.
Proof.
  intros Hcodec w2.
  assert (Hfiles : files w2 = <[App.STATE_FILE := json_dump doc2]> (files w)).
  { subst w2. unfold App.save_state. run_M.
    cbn [files with_files snd]. by rewrite !insert_insert_eq. }
  split; [exact Hfiles|]. split.
  - unfold App.load_state. run_M. rewrite Hfiles, lookup_insert_eq.
    rewrite bool_decide_eq_true_2 by eauto.
    rewrite Hfiles, lookup_insert_eq. by rewrite Hcodec.
  - intros p Hp. by rewrite Hfiles, lookup_insert_ne.
Qed.

(** X9. Loading the state changes nothing, whatever it answers; and a
    state file that the JSON reader rejects is answered with status 500
    and the reader's message. *)
Theorem load_state_reads_only (w : world) :
  (App.load_state w).2 = w
  /\ forall text cls msg : string,
       files w !! App.STATE_FILE = Some text ->
       json_load text = inl (Exception cls msg) ->
       App.load_state w = (inr (Shape.error_response msg), w).
Proof.
  split.
  - unfold App.load_state. run_M. branches.
  - intros text cls msg Hfile Hload. unfold App.load_state. run_M.
    rewrite Hfile. rewrite bool_decide_eq_true_2 by eauto.
    rewrite Hfile. by rewrite Hload.
Qed.

End StateFile.

(** The decoder of the examples raises only exceptions. *)
Lemma sample_decoder_raises_exceptions (s : string) (quad_pos : nat)
    (leftchar : N) (pads seen : nat) (code : Z) :
  Sample.a2b_base64 s quad_pos leftchar pads seen <> inl (SystemExit code).
Proof.
  revert quad_pos leftchar pads seen.
  induction s as [|c s IH]; intros quad_pos leftchar pads seen; simpl.
  - by destruct quad_pos as [|[|?]].
  - destruct (Ascii.eqb c "=").
    + destruct (_ && _); [done|apply IH].
    + destruct (Sample.b64_value c) as [d|]; [|apply IH].
      destruct quad_pos as [|[|[|?]]]; [apply IH|..];
        match goal with
        | |- context [Sample.a2b_base64 s ?q ?l ?p ?n] =>
            specialize (IH q l p n);
            destruct (Sample.a2b_base64 s q l p n) as [[? ?|?]|?]
        end; done.
Qed.

Lemma sample_libraries_raise_exceptions (answer : response) :
  Shape.libraries_raise_exceptions (rt := Sample.runtime (inr answer)).
Proof.
  split; [done|]. intros s code. cbn. unfold Sample.base64_b64decode.
  destruct (Sample.is_ascii s); [|done].
  apply sample_decoder_raises_exceptions.
Qed.

(** ** The further properties on the examples *)

Lemma generate_persists_image_witness :
  Shape.credential Sample.keyed
  /\ App.extract_image_from_response Sample.named_response
     = inr (Some "AAAA", Some "Name")
  /\ b64decode (Runtime := Sample.runtime (inr Sample.named_response)) "AAAA"
     = inr Cases.three_nuls
  /\ files (App.generate_animal
              (rt := Sample.runtime (inr Sample.named_response))
              ∅ Sample.keyed).2
     !! "static/generated/3f2b8c1d.png" = Some Cases.three_nuls.
Proof.
  assert (Hkey : Shape.credential Sample.keyed) by reflexivity.
  assert (Hextract : App.extract_image_from_response Sample.named_response
                     = inr (Some "AAAA", Some "Name"))
    by (vm_compute; reflexivity).
  assert (Hdecode :
    b64decode (Runtime := Sample.runtime (inr Sample.named_response)) "AAAA"
    = inr Cases.three_nuls) by (vm_compute; reflexivity).
  split; [exact Hkey|]. split; [exact Hextract|]. split; [exact Hdecode|].
  destruct (generate_persists_image
              (rt := Sample.runtime (inr Sample.named_response))
              ∅ Sample.keyed Sample.named_response "AAAA" Cases.three_nuls
              (Some "Name") Hkey eq_refl Hextract eq_refl Hdecode)
    as (w' & Hrun & _ & Hfile & _).
  rewrite Hrun. exact Hfile.
Defined.

Lemma generated_id_resolves_witness :
  App.generate_animal (rt := Sample.runtime (inr Sample.named_response))
    ∅ Sample.keyed
  = (inr Cases.newborn,
     (App.generate_animal (rt := Sample.runtime (inr Sample.named_response))
        ∅ Sample.keyed).2)
  /\ App.status Cases.newborn = 200%Z
  /\ Spec.field (App.body Cases.newborn) "id" = Some (JStr "3f2b8c1d")
  /\ (App.breed_animals (rt := Sample.runtime (inr Sample.named_response))
        Cases.self_breed_data
        (App.generate_animal (rt := Sample.runtime (inr Sample.named_response))
           ∅ Sample.keyed).2).1
     <> inr Shape.not_found_response.
Proof.
  assert (Hrun :
    App.generate_animal (rt := Sample.runtime (inr Sample.named_response))
      ∅ Sample.keyed
    = (inr Cases.newborn,
       (App.generate_animal (rt := Sample.runtime (inr Sample.named_response))
          ∅ Sample.keyed).2)) by (vm_compute; reflexivity).
  assert (Hid : Spec.field (App.body Cases.newborn) "id"
                = Some (JStr "3f2b8c1d")) by (vm_compute; reflexivity).
  split; [exact Hrun|]. split; [reflexivity|]. split; [exact Hid|].
  exact (proj2 (generated_id_resolves
                  (rt := Sample.runtime (inr Sample.named_response))
                  ∅ Sample.keyed _ Cases.newborn "3f2b8c1d"
                  Hrun eq_refl Hid)
           Cases.self_breed_data eq_refl eq_refl).
Defined.

Lemma generate_failure_leaves_world_witness :
  Shape.credential Sample.keyed
  /\ App.generate_animal (rt := Sample.runtime (inl Cases.quota))
       ∅ Sample.keyed
     = (inr (Shape.error_response "quota exceeded"),
        Shape.sent (Spec.generate_request Sample.keyed "a cute fantasy animal")
          Sample.keyed)
  /\ App.generate_animal (rt := Sample.runtime (inr Cases.blank_response))
       ∅ Sample.keyed
     = (inr (Shape.error_response "No image generated"),
        Shape.sent (Spec.generate_request Sample.keyed "a cute fantasy animal")
          Sample.keyed).
Proof.
  assert (Hkey : Shape.credential Sample.keyed) by reflexivity.
  split; [exact Hkey|]. split.
  - exact (proj1 (generate_failure_leaves_world
                    (rt := Sample.runtime (inl Cases.quota))
                    ∅ Sample.keyed Hkey) _ _ eq_refl).
  - exact (proj2 (proj2 (generate_failure_leaves_world
                    (rt := Sample.runtime (inr Cases.blank_response))
                    ∅ Sample.keyed Hkey))
             Cases.blank_response None None eq_refl eq_refl eq_refl).
Defined.

Lemma breed_persists_image_witness :
  Shape.credential Sample.stocked
  /\ files Sample.stocked
     !! App.image_file (App.fmt (Sample.breed_data !! "parent1_id"))
     = Some "abc"
  /\ files Sample.stocked
     !! App.image_file (App.fmt (Sample.breed_data !! "parent2_id"))
     = Some "xyz"
  /\ files (App.breed_animals
              (rt := Sample.runtime (inr Sample.nameless_response))
              Sample.breed_data Sample.stocked).2
     = <["static/generated/3f2b8c1d.png" := Cases.three_nuls]>
         (files Sample.stocked).
Proof.
  assert (Hkey : Shape.credential Sample.stocked) by reflexivity.
  assert (H1 : files Sample.stocked
               !! App.image_file (App.fmt (Sample.breed_data !! "parent1_id"))
               = Some "abc") by (vm_compute; reflexivity).
  assert (H2 : files Sample.stocked
               !! App.image_file (App.fmt (Sample.breed_data !! "parent2_id"))
               = Some "xyz") by (vm_compute; reflexivity).
  assert (Hextract : App.extract_image_from_response Sample.nameless_response
                     = inr (Some "AAAA", None)) by (vm_compute; reflexivity).
  assert (Hdecode :
    b64decode (Runtime := Sample.runtime (inr Sample.nameless_response)) "AAAA"
    = inr Cases.three_nuls) by (vm_compute; reflexivity).
  split; [exact Hkey|]. split; [exact H1|]. split; [exact H2|].
  destruct (breed_persists_image
              (rt := Sample.runtime (inr Sample.nameless_response))
              Sample.breed_data Sample.stocked "abc" "xyz"
              Sample.nameless_response "AAAA" Cases.three_nuls None
              Hkey H1 H2 eq_refl Hextract eq_refl Hdecode)
    as (w' & Hrun & Hfiles & _).
  rewrite Hrun. exact Hfiles.
Defined.

Lemma handlers_write_only_minted_file_witness :
  "static/generated/aaaa1111.png"
  <> App.image_file
       (Shape.minted_id (rt := Sample.runtime (inr Sample.named_response))
          Sample.stocked)
  /\ files (App.breed_animals
              (rt := Sample.runtime (inr Sample.named_response))
              Sample.breed_data Sample.stocked).2
     !! "static/generated/aaaa1111.png"
     = files Sample.stocked !! "static/generated/aaaa1111.png".
Proof.
  assert (Hp : "static/generated/aaaa1111.png"
               <> App.image_file
                    (Shape.minted_id
                       (rt := Sample.runtime (inr Sample.named_response))
                       Sample.stocked)) by (vm_compute; discriminate).
  split; [exact Hp|].
  exact (proj2 (handlers_write_only_minted_file
                  (rt := Sample.runtime (inr Sample.named_response))
                  Sample.breed_data Sample.stocked _ Hp)).
Defined.

Lemma handlers_catch_exceptions_witness :
  Shape.credential Sample.keyed
  /\ (App.generate_animal (rt := Sample.runtime (inl Cases.quota))
        ∅ Sample.keyed).1
     <> inl Cases.quota.
Proof.
  assert (Hkey : Shape.credential Sample.keyed) by reflexivity.
  split; [exact Hkey|].
  exact (proj1 (proj2 (proj1 (handlers_catch_exceptions
                                (rt := Sample.runtime (inl Cases.quota))
                                Sample.keyed "RateLimitError" "quota exceeded")
                         Hkey)) ∅).
Defined.

Lemma breed_names_default_witness :
  Cases.anonymous_breed_data !! "parent1_name" = None
  /\ Cases.anonymous_breed_data !! "parent2_name" = None
  /\ App.breed_animals (rt := Sample.runtime (inr Sample.nameless_response))
       Cases.anonymous_breed_data Sample.stocked
     = App.breed_animals (rt := Sample.runtime (inr Sample.nameless_response))
         (<["parent1_name" := "creature 1"]>
            (<["parent2_name" := "creature 2"]> Cases.anonymous_breed_data))
         Sample.stocked.
Proof.
  assert (H1 : Cases.anonymous_breed_data !! "parent1_name" = None)
    by (vm_compute; reflexivity).
  assert (H2 : Cases.anonymous_breed_data !! "parent2_name" = None)
    by (vm_compute; reflexivity).
  split; [exact H1|]. split; [exact H2|].
  exact (breed_names_default
           (rt := Sample.runtime (inr Sample.nameless_response))
           Cases.anonymous_breed_data Sample.stocked H1 H2).
Defined.

(** Without names and without text the offspring is called [cree 2]. *)
Example anonymous_offspring_name :
  match (App.breed_animals
           (rt := Sample.runtime (inr Sample.nameless_response))
           Cases.anonymous_breed_data Sample.stocked).1 with
  | inr resp => Spec.name_of (App.body resp)
  | inl _ => None
  end = Some (JStr "cree 2").
Proof. vm_compute. reflexivity. Qed.

Lemma save_state_overwrites_witness :
  json_load (Runtime := Sample.runtime (inr Sample.named_response))
    (json_dump (Runtime := Sample.runtime (inr Sample.named_response))
       Sample.state_doc)
  = inr Sample.state_doc
  /\ files (App.save_state (rt := Sample.runtime (inr Sample.named_response))
              Sample.state_doc
              (App.save_state
                 (rt := Sample.runtime (inr Sample.named_response))
                 Spec.empty_state Sample.stocked).2).2
     !! "static/generated/aaaa1111.png" = Some "abc".
Proof.
  assert (Hcodec :
    json_load (Runtime := Sample.runtime (inr Sample.named_response))
      (json_dump (Runtime := Sample.runtime (inr Sample.named_response))
         Sample.state_doc)
    = inr Sample.state_doc) by (vm_compute; reflexivity).
  split; [exact Hcodec|].
  rewrite (proj2 (proj2 (save_state_overwrites
                           (rt := Sample.runtime (inr Sample.named_response))
                           Spec.empty_state Sample.state_doc Sample.stocked
                           Hcodec)) "static/generated/aaaa1111.png")
    by discriminate.
  vm_compute. reflexivity.
Defined.

Lemma load_state_reads_only_witness :
  files Cases.corrupt !! App.STATE_FILE = Some "{oops"
  /\ json_load (Runtime := Sample.runtime (inr Sample.named_response)) "{oops"
     = inl (Exception "JSONDecodeError" "Expecting value")
  /\ App.load_state (rt := Sample.runtime (inr Sample.named_response))
       Cases.corrupt
     = (inr (Shape.error_response "Expecting value"), Cases.corrupt).
Proof.
  assert (Hfile : files Cases.corrupt !! App.STATE_FILE = Some "{oops")
    by (vm_compute; reflexivity).
  assert (Hload :
    json_load (Runtime := Sample.runtime (inr Sample.named_response)) "{oops"
    = inl (Exception "JSONDecodeError" "Expecting value"))
    by (vm_compute; reflexivity).
  split; [exact Hfile|]. split; [exact Hload|].
  exact (proj2 (load_state_reads_only
                  (rt := Sample.runtime (inr Sample.named_response))
                  Cases.corrupt) _ _ _ Hfile Hload).
Defined.

Lemma tool_refuses_input2_alone_witness :
  App.truthy (Cli.arg_input Cases.lonely_input2_args) = false
  /\ App.truthy (Cli.arg_input2 Cases.lonely_input2_args) = true
  /\ Cli.exit_status (rt := Sample.runtime (inr Sample.named_response))
       Cases.lonely_input2_args Sample.bare
     = (1%Z,
        Spec.printed ["ERROR: --input2 requires --input to also be specified"]
          Sample.bare).
Proof.
  split; [reflexivity|]. split; [reflexivity|].
  exact (tool_refuses_input2_alone
           (rt := Sample.runtime (inr Sample.named_response))
           Cases.lonely_input2_args Sample.bare eq_refl eq_refl).
Defined.


Lemma tool_success_means_saved_witness :
  Shape.libraries_raise_exceptions
    (rt := Sample.runtime (inr Sample.named_response))
  /\ Cli.exit_status (rt := Sample.runtime (inr Sample.named_response))
       Cases.text_args Sample.keyed
     = (0%Z,
        (Cli.exit_status (rt := Sample.runtime (inr Sample.named_response))
           Cases.text_args Sample.keyed).2)
  /\ exists (payload decoded : string) (req : chat_request),
       b64decode (Runtime := Sample.runtime (inr Sample.named_response))
         payload = inr decoded
       /\ files (Cli.exit_status
                   (rt := Sample.runtime (inr Sample.named_response))
                   Cases.text_args Sample.keyed).2
          !! "out/fox.png" = Some decoded
       /\ calls (Cli.exit_status
                   (rt := Sample.runtime (inr Sample.named_response))
                   Cases.text_args Sample.keyed).2
          = calls Sample.keyed ++ [req]
       /\ last (stdout (Cli.exit_status
                          (rt := Sample.runtime (inr Sample.named_response))
                          Cases.text_args Sample.keyed).2)
          = Some ("SUCCESS: Image saved to " +:+ "out/fox.png").
Proof.
  assert (Hlibs : Shape.libraries_raise_exceptions
                    (rt := Sample.runtime (inr Sample.named_response)))
    by apply sample_libraries_raise_exceptions.
  assert (Hrun :
    Cli.exit_status (rt := Sample.runtime (inr Sample.named_response))
      Cases.text_args Sample.keyed
    = (0%Z,
       (Cli.exit_status (rt := Sample.runtime (inr Sample.named_response))
          Cases.text_args Sample.keyed).2)) by (vm_compute; reflexivity).
  split; [exact Hlibs|]. split; [exact Hrun|].
  exact (tool_success_means_saved
           (rt := Sample.runtime (inr Sample.named_response))
           Cases.text_args Sample.keyed _ Hlibs Hrun).
Defined.

Lemma tool_request_shapes_witness :
  Shape.credential Sample.kennel
  /\ Cli.arg_input Cases.image_args = Some "cat.jpg"
  /\ files Sample.kennel !! "cat.jpg" = Some "abc"
  /\ calls (Cli.exit_status (rt := Sample.runtime (inr Sample.named_response))
              Cases.image_args Sample.kennel).2
     = calls Sample.kennel
       ++ [Shape.image_request
             (rt := Sample.runtime (inr Sample.named_response))
             Sample.kennel Cli.DEFAULT_MODEL "as a watercolor" "cat.jpg"
             "abc"].
Proof.
  assert (Hkey : Shape.credential Sample.kennel) by reflexivity.
  assert (Hfile : files Sample.kennel !! "cat.jpg" = Some "abc")
    by (vm_compute; reflexivity).
  split; [exact Hkey|]. split; [reflexivity|]. split; [exact Hfile|].
  exact (proj1 (proj2 (tool_request_shapes
                         (rt := Sample.runtime (inr Sample.named_response))
                         Cases.image_args Sample.kennel Hkey))
           "cat.jpg" "abc" eq_refl eq_refl eq_refl Hfile).
Defined.

(** The request of the tool from [cat.jpg]: a JPEG data URI of [abc]. *)
Example tool_image_request :
  msg_content
    <$> req_messages
          (Shape.image_request
             (rt := Sample.runtime (inr Sample.named_response))
             Sample.kennel Cli.DEFAULT_MODEL "as a watercolor" "cat.jpg" "abc")
  = [Parts [TextPart "Generate an image: as a watercolor";
            ImageUrlPart "data:image/jpeg;base64,YWJj"]].
Proof. vm_compute. reflexivity. Qed.

Lemma first_match_ends_scan_witness :
  Forall (fun x => Spec.other_item x = true) [JObj {[ "type" := JStr "text" ]}]
  /\ Spec.data_image_url (Sample.image_item "data:image/png;base64,AAAA")
     = Some "data:image/png;base64,AAAA"
  /\ App.scan_images (default [] (images Cases.trailing_junk_message))
     = App.scan_images [Sample.image_item "data:image/png;base64,AAAA"].
Proof.
  assert (Hpre : Forall (fun x => Spec.other_item x = true)
                   [JObj {[ "type" := JStr "text" ]}])
    by (repeat constructor).
  assert (Hit : Spec.data_image_url
                  (Sample.image_item "data:image/png;base64,AAAA")
                = Some "data:image/png;base64,AAAA")
    by (vm_compute; reflexivity).
  split; [exact Hpre|]. split; [exact Hit|].
  exact (proj1 (first_match_ends_scan
                  (rt := Sample.runtime (inr Sample.named_response))
                  [JObj {[ "type" := JStr "text" ]}] [JNull]
                  (Sample.image_item "data:image/png;base64,AAAA")
                  "data:image/png;base64,AAAA" Hpre Hit)).
Defined.

(** The item after the match is no dict, and would raise if it were
    reached. *)
Example junk_alone_raises :
  App.scan_images [JNull]
  = inl (Exception "TypeError" "'NoneType' object is not subscriptable").
Proof. reflexivity. Qed.

Lemma empty_payload_is_no_image_witness :
  Spec.first_message Cases.empty_payload_response
  = Some Cases.empty_payload_message
  /\ Spec.scannable (Spec.media Cases.empty_payload_message)
  /\ Spec.first_data_image (Spec.media Cases.empty_payload_message)
     = Some ("data:image/png;base64" +:+ ",")
  /\ Spec.occurs "," "data:image/png;base64" = false
  /\ App.extract_image_from_response Cases.empty_payload_response
     = inr (Some EmptyString, Some "Name").
Proof.
  assert (Hscan : Spec.scannable (Spec.media Cases.empty_payload_message))
    by (vm_compute; constructor).
  assert (Hfirst : Spec.first_data_image
                     (Spec.media Cases.empty_payload_message)
                   = Some ("data:image/png;base64" +:+ ","))
    by (vm_compute; reflexivity).
  split; [reflexivity|]. split; [exact Hscan|]. split; [exact Hfirst|].
  split; [reflexivity|].
  exact (proj1 (empty_payload_is_no_image
                  (rt := Sample.runtime (inr Cases.empty_payload_response))
                  Cases.empty_payload_response Cases.empty_payload_message
                  "data:image/png;base64" eq_refl Hscan Hfirst eq_refl)).
Defined.

(** On that answer the web handler writes nothing and the tool writes an
    empty file and exits with status 0. *)
Example empty_payload_runs :
  App.generate_animal
    (rt := Sample.runtime (inr Cases.empty_payload_response)) ∅ Sample.keyed
  = (inr (Shape.error_response "No image generated"),
     Shape.sent (Spec.generate_request Sample.keyed "a cute fantasy animal")
       Sample.keyed)
  /\ (Cli.exit_status
        (rt := Sample.runtime (inr Cases.empty_payload_response))
        Cases.text_args Sample.keyed).1 = 0%Z
  /\ files (Cli.exit_status
              (rt := Sample.runtime (inr Cases.empty_payload_response))
              Cases.text_args Sample.keyed).2
     !! "out/fox.png" = Some EmptyString.
Proof. repeat split; vm_compute; reflexivity. Qed.

Lemma tool_without_image_witness :
  Shape.credential Sample.keyed
  /\ Spec.first_message Cases.empty_response = None
  /\ exists w' : world,
       Cli.exit_status (rt := Sample.runtime (inr Cases.empty_response))
         Cases.text_args Sample.keyed = (1%Z, w')
       /\ files w' = files Sample.keyed /\ dirs w' = dirs Sample.keyed
       /\ last (stdout w') = Some "ERROR: No response received from API".
Proof.
  assert (Hkey : Shape.credential Sample.keyed) by reflexivity.
  split; [exact Hkey|]. split; [reflexivity|].
  exact (proj1 (tool_without_image
                  (rt := Sample.runtime (inr Cases.empty_response))
                  Cases.text_args Sample.keyed Cases.empty_response
                  Hkey eq_refl eq_refl eq_refl) eq_refl).
Defined.
